(** * Startup-Investor Matchmaking API: a shallow embedding of [main.py]

    The handlers of [main.py] that carry logic are the matchmaking endpoint
    ([get_matches] with its local function [score]) and the Google sign-in
    endpoint ([auth_google]).  Both are embedded below as Rocq functions and
    their properties proved.

    Scores are Python floats, that is IEEE 754 binary64 numbers.  They are
    modelled bit for bit with the executable specification of [SpecFloat]
    ([prec = 53], [emax = 1024]), so that [0.1 * 3] is the double
    [0.30000000000000004], as it is in the running program. *)

From Stdlib Require Import ZArith List String Bool Lia Sorted SpecFloat.
From stdpp Require Import gmap strings list sorting.

Set Warnings "-register-all".
Local Open Scope Z_scope.

(** ** Binary64 arithmetic *)

Module Float64.

Definition prec : Z := 53.
Definition emax : Z := 1024.

Definition float : Type := spec_float.

Definition add : float -> float -> float := SFadd prec emax.
Definition mul : float -> float -> float := SFmul prec emax.
Definition div : float -> float -> float := SFdiv prec emax.

(** [x < y], [x <= y] and [x >= y]; all three are false on a NaN. *)
Definition ltb : float -> float -> bool := SFltb.
Definition leb : float -> float -> bool := SFleb.
Definition geb (x y : float) : bool := SFleb y x.
Definition eqb : float -> float -> bool := SFeqb.

(** Conversion of a Python [int] operand to a float (round to nearest,
    ties to even).  The only integers converted in [main.py] are results
    of [len], which are below [2^63]; the conversion is exact up to
    [2^53] and never leaves the finite range there. *)
Definition of_int (z : Z) : float := binary_normalize prec emax z 0 false.

(** The float literals of [main.py], as the doubles the parser reads.
    [0.1 = 0x1.999999999999ap-4], [0.15 = 0x1.3333333333333p-3]. *)
Definition f0_0 : float := S754_zero false.
Definition f0_1 : float := S754_finite false 7205759403792794 (-56).
Definition f0_15 : float := S754_finite false 5404319552844595 (-55).
Definition f0_2 : float := S754_finite false 7205759403792794 (-55).
Definition f0_4 : float := S754_finite false 7205759403792794 (-54).
Definition f1_0 : float := S754_finite false 4503599627370496 (-52).

(** More doubles that the scores take: [0.1 * 3], which is
    [0.30000000000000004], and the doubles nearest to [0.3] and [0.6]. *)
Definition f0_30000000000000004 : float :=
  S754_finite false 5404319552844596 (-54).
Definition f0_3 : float := S754_finite false 5404319552844595 (-54).
Definition f0_6 : float := S754_finite false 5404319552844595 (-53).

End Float64.

(** ** The Python builtins the handlers call *)

Module Py.
Import Float64.

(** [min(a, b)]: the first argument, unless the second is smaller. *)
Definition min (a b : float) : float := if ltb b a then b else a.

(** [max(a, b)]: the first argument, unless the second is greater. *)
Definition max (a b : float) : float := if ltb a b then b else a.

(** Truth value of an [Optional[str]]: [None] and [""] are false. *)
Definition truthy_str (o : option string) : bool :=
  match o with
  | Some s => negb (String.eqb s "")
  | None => false
  end.

(** Truth value of an [Optional[List[str]]]. *)
Definition truthy_list {A : Type} (o : option (list A)) : bool :=
  match o with
  | Some (_ :: _) => true
  | _ => false
  end.

(** [a == b] on two [Optional[str]] values. *)
Definition str_eq (a b : option string) : bool :=
  match a, b with
  | Some s, Some t => String.eqb s t
  | None, None => true
  | _, _ => false
  end.

(** [str(d.get("_id"))]. *)
Definition str_of_id (o : option string) : string :=
  match o with
  | Some s => s
  | None => "None"
  end.

(** [n / d] rounded to the nearest integer, ties to even ([0 < d]). *)
Definition round_half_even (n d : Z) : Z :=
  let q := n / d in
  match (2 * (n mod d)) ?= d with
  | Lt => q
  | Gt => q + 1
  | Eq => if Z.even q then q else q + 1
  end.

(** [round(x, 2)] on a float.  CPython prints the exact value of [x] with
    two digits after the point (correctly rounded, ties to even) and reads
    the decimal string back, which gives the double nearest to [q / 100]
    for the integer [q] nearest to [100 * x].  A value that is not finite
    rounds to itself. *)
Definition round2 (x : float) : float :=
  match x with
  | S754_finite s m e =>
      let q :=
        match e with
        | Zneg _ => round_half_even (100 * Zpos m) (2 ^ (- e))
        | _ => 100 * Zpos m * 2 ^ e
        end in
      match q with
      | Zpos p => div (S754_finite s p 0) (S754_finite false 100 0)
      | _ => S754_zero s
      end
  | _ => x
  end.

(** [msg[:200]]. *)
Definition truncate200 (msg : string) : string := String.substring 0 200 msg.

(** What a handler does: it returns a value or raises. *)
Inductive Exn : Type :=
| HTTPException (status_code : Z) (detail : string)
| ValidationError (msg : string)
| Exception (msg : string).

Inductive Outcome (A : Type) : Type :=
| Return (a : A)
| Raise (e : Exn).
Arguments Return {A} a.
Arguments Raise {A} e.

Definition bind {A B : Type} (c : Outcome A) (k : A -> Outcome B) : Outcome B :=
  match c with
  | Return a => k a
  | Raise e => Raise e
  end.

(** [str(e)] for the detail of the catch-all clause. *)
Definition str_of_exn (e : Exn) : string :=
  match e with
  | HTTPException _ d => d
  | ValidationError m => m
  | Exception m => m
  end.

End Py.

Notation "'try!' x ':=' c 'in' k" := (Py.bind c (fun x => k))
  (at level 10, x name, c at level 100, k at level 200).

(** ** The record shapes of [schemas.py] *)

(** [Literal["startup","investor"]]. *)
Inductive UserType : Type := startup | investor.

(** A JSON value, as [requests] decodes a response body. *)
Inductive Json : Type :=
| JNull
| JBool (b : bool)
| JInt (z : Z)
| JFloat (f : Float64.float)
| JStr (s : string)
| JArr (l : list Json)
| JObj (o : gmap string Json).

(** A stored startup document as [dict.get] sees it: a key that is absent
    (or holds [None]) reads as [None].  The keys are those of the [Startup]
    model, with the identifier [_id] the store adds. *)
Module Startup.
Import Float64.

Record t : Type := {
  _id : option string;
  name : option string;
  tagline : option string;
  website : option string;
  industry : option (list string);
  stage : option string;
  geography : option string;
  problem : option string;
  solution : option string;
  traction : option string;
  team : option string;
  funding_needs_min : option float;
  funding_needs_max : option float;
  valuation : option float;
  revenue : option float;
  pitch_deck_url : option string;
  media_urls : option (list string);
  founder_name : option string;
  founder_email : option string;
  verified_founder : option bool
}.



End Startup.

(** A stored investor document, read the same way. *)
Module Investor.
Import Float64.

Record t : Type := {
  _id : option string;
  name : option string;
  email : option string;
  thesis : option string;
  domains : option (list string);
  preferred_stage : option (list string);
  geography : option string;
  ticket_min : option float;
  ticket_max : option float;
  portfolio_highlights : option string;
  exits : option string;
  verified_investor : option bool
}.

End Investor.

Module Match.
Import Float64.

Record t : Type := {
  a_id : string;
  a_type : UserType;
  b_id : string;
  b_type : UserType;
  score : float;
  rationale : option string
}.

(** The constructor [Match(...)]: the model validates
    [score: float = Field(0.0, ge=0, le=1)] and raises otherwise. *)
Definition new (a : string) (ta : UserType) (b : string) (tb : UserType)
  (sc : float) (r : option string) : Py.Outcome t :=
  if geb sc f0_0 && leb sc f1_0 then
    Py.Return {| a_id := a; a_type := ta; b_id := b; b_type := tb;
                 score := sc; rationale := r |}
  else Py.Raise (Py.ValidationError "score").

End Match.

(** The [ActivityLog] document that [auth_google] writes. *)
Module ActivityLog.

Record t : Type := {
  user_id : Json;
  user_type : string;
  action : string;
  meta_email : Json
}.

End ActivityLog.

(** ** The document store *)

Module Database.

(** The collections the two handlers touch. *)
Record Store : Type := {
  startup : list Startup.t;
  investor : list Investor.t;
  activitylog : list ActivityLog.t
}.

(** Modelled from the spec: [database.py] is not part of the sources.  The
    specification gives [query(collection_name, filter)], which returns the
    records that match, and the full collection in storage order for the
    empty filter; [get_matches] only queries with the empty filter. *)
Definition get_documents_startup (db : Store) : list Startup.t := startup db.

Definition get_documents_investor (db : Store) : list Investor.t := investor db.

(** Modelled from the spec: [create(collection_name, record)] inserts the
    record into the named collection; it fails when the store cannot be
    reached.  Whether it fails is decided outside the handler, so it is an
    input here ([fails]).  The identifier it returns is not used by
    [auth_google]. *)
Definition create_document_activitylog (fails : bool) (db : Store)
  (doc : ActivityLog.t) : Py.Outcome unit * Store :=
  if fails then (Py.Raise (Py.Exception "store unavailable"), db)
  else (Py.Return tt,
        {| startup := startup db;
           investor := investor db;
           activitylog := activitylog db ++ [doc] |}).

End Database.

(** ** [main.py] *)

(** The request body of [POST /api/matchmaking]. *)
Module MatchQuery.
Import Float64.

Record t : Type := {
  industry : option (list string);
  stage : option string;
  geography : option string;
  ticket_min : option float;
  ticket_max : option float
}.

End MatchQuery.

(** The request body of [POST /api/auth/google]. *)
Module GoogleAuthRequest.

Record t : Type := { id_token : string }.

End GoogleAuthRequest.

Module Main.
Import Float64.

(** *** Matchmaking *)

(** [len(set(a) & set(b))]. *)
Definition overlap (a b : list string) : nat :=
  size ((list_to_set a : gset string) ∩ list_to_set b).

(** [min(0.4, 0.1 * overlap)]. *)
Definition industry_component (k : nat) : float :=
  Py.min f0_4 (mul f0_1 (of_int (Z.of_nat k))).

(** The five [if] statements of [score], each as the update of the running
    sum [s] it performs. *)
Definition add_industry (body : MatchQuery.t) (si : Startup.t) (s : float) : float :=
  if Py.truthy_list (MatchQuery.industry body) then
    add s (industry_component
             (overlap (default [] (Startup.industry si))
                      (default [] (MatchQuery.industry body))))
  else s.

Definition add_stage (body : MatchQuery.t) (si : Startup.t) (s : float) : float :=
  if Py.truthy_str (MatchQuery.stage body)
     && Py.str_eq (MatchQuery.stage body) (Startup.stage si)
  then add s f0_2 else s.

Definition add_geography (body : MatchQuery.t) (inv : Investor.t) (s : float) : float :=
  if Py.truthy_str (MatchQuery.geography body)
     && Py.str_eq (MatchQuery.geography body) (Investor.geography inv)
  then add s f0_1 else s.

Definition add_ticket_min (body : MatchQuery.t) (inv : Investor.t) (s : float) : float :=
  match MatchQuery.ticket_min body, Investor.ticket_min inv with
  | Some b, Some i => if leb i b then add s f0_15 else s
  | _, _ => s
  end.

Definition add_ticket_max (body : MatchQuery.t) (inv : Investor.t) (s : float) : float :=
  match MatchQuery.ticket_max body, Investor.ticket_max inv with
  | Some b, Some i => if geb i b then add s f0_15 else s
  | _, _ => s
  end.

(** The running sum of [score] before the final clamp. *)
Definition score_sum (body : MatchQuery.t) (si : Startup.t) (inv : Investor.t) : float :=
  let s := f0_0 in
  let s := add_industry body si s in
  let s := add_stage body si s in
  let s := add_geography body inv s in
  let s := add_ticket_min body inv s in
  let s := add_ticket_max body inv s in
  s.

(** [score(si, inv)], the closure over the request [body]. *)
Definition score (body : MatchQuery.t) (si : Startup.t) (inv : Investor.t) : float :=
  Py.max f0_0 (Py.min f1_0 (score_sum body si inv)).

Definition rationale_text : string := "Heuristic overlap on filters".

(** The inner loop [for i in investors], appending to [results]. *)
Fixpoint for_investors (body : MatchQuery.t) (s : Startup.t)
  (investors : list Investor.t) (results : list Match.t)
  : Py.Outcome (list Match.t) :=
  match investors with
  | [] => Py.Return results
  | i :: rest =>
      let sc := score body s i in
      if geb sc f0_2 then
        try! m := Match.new (Py.str_of_id (Startup._id s)) startup
                            (Py.str_of_id (Investor._id i)) investor
                            (Py.round2 sc) (Some rationale_text) in
        for_investors body s rest (results ++ [m])
      else for_investors body s rest results
  end.

(** The outer loop [for s in startups]. *)
Fixpoint for_startups (body : MatchQuery.t) (startups : list Startup.t)
  (investors : list Investor.t) (results : list Match.t)
  : Py.Outcome (list Match.t) :=
  match startups with
  | [] => Py.Return results
  | s :: rest =>
      try! results' := for_investors body s investors results in
      for_startups body rest investors results'
  end.

(** [results.sort(key=..., reverse=True)].  Python's sort is stable, and with
    [reverse=True] elements with equal keys keep their original order: an
    element is placed after those with a key that is not smaller. *)
Fixpoint insert_desc {A : Type} (key : A -> float) (x : A) (l : list A) : list A :=
  match l with
  | [] => [x]
  | y :: l' =>
      if ltb (key x) (key y) then y :: insert_desc key x l' else x :: l
  end.

Definition sort_reverse {A : Type} (key : A -> float) (l : list A) : list A :=
  foldr (insert_desc key) [] l.

(** [POST /api/matchmaking]. *)
Definition get_matches (db : Database.Store) (body : MatchQuery.t) : Py.Outcome (list Match.t) :=
  let startups := Database.get_documents_startup db in
  let investors := Database.get_documents_investor db in
  try! results := for_startups body startups investors [] in
  let results := sort_reverse Match.score results in
  Py.Return (take 50 results).

(** *** Google sign-in *)

(** [info.get(key)] on the decoded body: [None] for an absent key. *)
Definition dict_get (o : gmap string Json) (key : string) : Json :=
  default JNull (o !! key).

(** [aud != client_id], a JSON value against a string. *)
Definition json_ne_str (j : Json) (s : string) : bool :=
  match j with
  | JStr t => negb (String.eqb t s)
  | _ => true
  end.

(** Truth value of a JSON value, for [profile.get("sub") or "unknown"]. *)
Definition json_truthy (j : Json) : bool :=
  match j with
  | JNull => false
  | JBool b => b
  | JInt z => negb (z =? 0)
  | JFloat f => negb (eqb f f0_0)
  | JStr s => negb (String.eqb s "")
  | JArr l => match l with [] => false | _ :: _ => true end
  | JObj o => negb (Nat.eqb (size o) 0)
  end.

(** The [profile] dictionary: a literal with seven fixed keys. *)
Record Profile : Type := {
  sub : Json;
  email : Json;
  email_verified : Json;
  name : Json;
  picture : Json;
  given_name : Json;
  family_name : Json
}.

(** The value [auth_google] returns: [{"ok": True, "profile": profile}]. *)
Record AuthResult : Type := {
  ok : bool;
  profile : Profile
}.

(** The response object [r] of [requests.get]: its status and what
    [r.json()] gives (it raises on a body that is not JSON). *)
Record Response : Type := {
  status_code : Z;
  json : Py.Outcome Json
}.

(** What surrounds the handler: the environment variable, the tokeninfo
    endpoint (the call raises on a timeout or a connection error) and
    whether the store rejects the activity-log write. *)
Record World : Type := {
  GOOGLE_CLIENT_ID : option string;
  requests_get : string -> Py.Outcome Response;
  activitylog_write_fails : bool
}.

(** The body of the outer [try] of [auth_google]. *)
Definition auth_google_try (w : World) (db : Database.Store)
  (body : GoogleAuthRequest.t) : Py.Outcome AuthResult * Database.Store :=
  match requests_get w (GoogleAuthRequest.id_token body) with
  | Py.Raise e => (Py.Raise e, db)
  | Py.Return r =>
      if negb (status_code r =? 200) then
        (Py.Raise (Py.HTTPException 401 "Invalid Google token"), db)
      else
        match json r with
        | Py.Raise e => (Py.Raise e, db)
        | Py.Return (JObj info) =>
            let aud := dict_get info "aud" in
            let client_id := GOOGLE_CLIENT_ID w in
            if Py.truthy_str client_id && json_ne_str aud (default "" client_id) then
              (Py.Raise (Py.HTTPException 401 "Token audience mismatch"), db)
            else
              let profile :=
                {| sub := dict_get info "sub";
                   email := dict_get info "email";
                   email_verified := dict_get info "email_verified";
                   name := dict_get info "name";
                   picture := dict_get info "picture";
                   given_name := dict_get info "given_name";
                   family_name := dict_get info "family_name" |} in
              (* try: create_document(...)  except Exception: pass *)
              let '(_, db') :=
                Database.create_document_activitylog (activitylog_write_fails w) db
                  {| ActivityLog.user_id :=
                       if json_truthy (sub profile) then sub profile
                       else JStr "unknown";
                     ActivityLog.user_type := "startup";
                     ActivityLog.action := "google_sign_in";
                     ActivityLog.meta_email := email profile |} in
              (Py.Return {| ok := true; profile := profile |}, db')
        | Py.Return _ =>
            (* [info.get] on a body that is not an object *)
            (Py.Raise (Py.Exception "object has no attribute 'get'"), db)
        end
  end.

(** [POST /api/auth/google]: an [HTTPException] passes through, any other
    exception becomes a 500 with the first 200 characters of its text. *)
Definition auth_google (w : World) (db : Database.Store)
  (body : GoogleAuthRequest.t) : Py.Outcome AuthResult * Database.Store :=
  match auth_google_try w db body with
  | (Py.Raise (Py.HTTPException c d), db') => (Py.Raise (Py.HTTPException c d), db')
  | (Py.Raise e, db') =>
      (Py.Raise (Py.HTTPException 500 (Py.truncate200 (Py.str_of_exn e))), db')
  | (Py.Return v, db') => (Py.Return v, db')
  end.

End Main.

(** ** Vocabulary for the statements *)

Module MatchSpec.
Import Float64.

(** The pairs of the cross product, in the order the two loops visit them. *)
Definition cross (startups : list Startup.t) (investors : list Investor.t)
  : list (Startup.t * Investor.t) :=
  flat_map (fun s => map (pair s) investors) startups.

(** The test [sc >= 0.2] on a pair. *)
Definition passes (body : MatchQuery.t) (p : Startup.t * Investor.t) : bool :=
  geb (Main.score body p.1 p.2) f0_2.

(** The [Match] record the loop body builds for a pair. *)
Definition match_of (body : MatchQuery.t) (p : Startup.t * Investor.t) : Match.t :=
  {| Match.a_id := Py.str_of_id (Startup._id p.1);
     Match.a_type := startup;
     Match.b_id := Py.str_of_id (Investor._id p.2);
     Match.b_type := investor;
     Match.score := Py.round2 (Main.score body p.1 p.2);
     Match.rationale := Some Main.rationale_text |}.

(** The pairs that pass the threshold, in enumeration order. *)
Definition candidates (db : Database.Store) (body : MatchQuery.t)
  : list (Startup.t * Investor.t) :=
  List.filter (passes body)
    (cross (Database.get_documents_startup db) (Database.get_documents_investor db)).

(** The score a returned record carries. *)
Definition rounded_score (body : MatchQuery.t) (p : Startup.t * Investor.t) : float :=
  Py.round2 (Main.score body p.1 p.2).

(** The first fifty candidates in the order of the sort. *)
Definition ranked (db : Database.Store) (body : MatchQuery.t)
  : list (Startup.t * Investor.t) :=
  take 50 (Main.sort_reverse (rounded_score body) (candidates db body)).

(** Non-increasing keys: every element's key is at least that of every
    later element. *)
Definition descending {A : Type} (key : A -> float) (l : list A) : Prop :=
  StronglySorted (fun a b => leb (key b) (key a) = true) l.

(** The elements of [l] whose key compares equal to [v], in order. *)
Definition tied {A : Type} (key : A -> float) (v : float) (l : list A) : list A :=
  List.filter (fun x => eqb (key x) v) l.

(** The running sum of [score] as a function of the overlap and of which of
    the four tests succeed. *)
Definition sum_of (k : nat) (b_stage b_geo b_min b_max : bool) : float :=
  let s := add f0_0 (Main.industry_component k) in
  let s := if b_stage then add s f0_2 else s in
  let s := if b_geo then add s f0_1 else s in
  let s := if b_min then add s f0_15 else s in
  let s := if b_max then add s f0_15 else s in
  s.

End MatchSpec.

Module AuthSpec.

(** The [profile] that [auth_google] builds from the decoded claims. *)
Definition profile_of (info : gmap string Json) : Main.Profile :=
  {| Main.sub := Main.dict_get info "sub";
     Main.email := Main.dict_get info "email";
     Main.email_verified := Main.dict_get info "email_verified";
     Main.name := Main.dict_get info "name";
     Main.picture := Main.dict_get info "picture";
     Main.given_name := Main.dict_get info "given_name";
     Main.family_name := Main.dict_get info "family_name" |}.

(** The audience test passes: no client id is configured (unset or empty),
    or the [aud] claim is the configured client id. *)
Definition audience_accepted (client_id : option string) (info : gmap string Json) : Prop :=
  match client_id with
  | Some cid => cid = ""%string \/ Main.dict_get info "aud" = JStr cid
  | None => True
  end.

End AuthSpec.

(** ** Sample data *)

Module Examples.
Import Float64.

(** A startup document with the given identifier, tags and stage; the other
    keys hold the defaults of the model. *)
Definition startup_doc (id : string) (tags : list string) (stage : string) : Startup.t :=
  {| Startup._id := Some id;
     Startup.name := Some id;
     Startup.tagline := None;
     Startup.website := None;
     Startup.industry := Some tags;
     Startup.stage := Some stage;
     Startup.geography := None;
     Startup.problem := None;
     Startup.solution := None;
     Startup.traction := None;
     Startup.team := None;
     Startup.funding_needs_min := None;
     Startup.funding_needs_max := None;
     Startup.valuation := None;
     Startup.revenue := None;
     Startup.pitch_deck_url := None;
     Startup.media_urls := Some [];
     Startup.founder_name := None;
     Startup.founder_email := None;
     Startup.verified_founder := Some false |}.

(** An investor document with the given identifier and ticket range. *)
Definition investor_doc (id : string) (tmin tmax : option float) : Investor.t :=
  {| Investor._id := Some id;
     Investor.name := Some id;
     Investor.email := None;
     Investor.thesis := None;
     Investor.domains := Some [];
     Investor.preferred_stage := Some ["pre-seed"; "seed"]%string;
     Investor.geography := None;
     Investor.ticket_min := tmin;
     Investor.ticket_max := tmax;
     Investor.portfolio_highlights := None;
     Investor.exits := None;
     Investor.verified_investor := Some false |}.

Definition store (startups : list Startup.t) (investors : list Investor.t)
  : Database.Store :=
  {| Database.startup := startups;
     Database.investor := investors;
     Database.activitylog := [] |}.

(** The example of the specification: a seed-stage startup tagged
    [fintech] and [ai], a preference for [fintech] at the seed stage. *)
Definition s_fintech : Startup.t := startup_doc "s1" ["fintech"; "ai"]%string "seed".
Definition i_plain : Investor.t := investor_doc "i1" None None.
Definition q_fintech_seed : MatchQuery.t :=
  {| MatchQuery.industry := Some ["fintech"]%string;
     MatchQuery.stage := Some "seed"%string;
     MatchQuery.geography := None;
     MatchQuery.ticket_min := None;
     MatchQuery.ticket_max := None |}.

(** Two startups and two investors whose pairs have raw scores [0.3] and
    [0.30000000000000004], both rounded to [0.3]. *)
Definition s_none : Startup.t := startup_doc "s1" [] "idea".
Definition s_three : Startup.t := startup_doc "s2" ["a"; "b"; "c"]%string "idea".
Definition i_tickets : Investor.t :=
  investor_doc "i1" (Some (of_int 50000)) (Some (of_int 900000)).
Definition i_none : Investor.t := investor_doc "i2" None None.
Definition q_tags_tickets : MatchQuery.t :=
  {| MatchQuery.industry := Some ["a"; "b"; "c"]%string;
     MatchQuery.stage := None;
     MatchQuery.geography := None;
     MatchQuery.ticket_min := Some (of_int 100000);
     MatchQuery.ticket_max := Some (of_int 500000) |}.

(** The claims of a token issued to the audience [aud]. *)
Definition claims (aud : string) : gmap string Json :=
  <["aud" := JStr aud]>
    (<["sub" := JStr "user-1"]> (<["email" := JStr "u@example.org"]> ∅)).

(** A tokeninfo response with the given status and [aud] claim. *)
Definition tokeninfo (status : Z) (aud : string) : Main.Response :=
  {| Main.status_code := status;
     Main.json := Py.Return (JObj (claims aud)) |}.

(** A world in which the endpoint answers every token with [r]. *)
Definition world (client_id : option string) (r : Main.Response) (write_fails : bool)
  : Main.World :=
  {| Main.GOOGLE_CLIENT_ID := client_id;
     Main.requests_get := fun _ => Py.Return r;
     Main.activitylog_write_fails := write_fails |}.

Definition request : GoogleAuthRequest.t := {| GoogleAuthRequest.id_token := "token" |}.

End Examples.

(** ** Vocabulary for further statements about the score *)

Module ScoreSpec.
Import Float64.

(** The four tests of [score] that follow the industry test. *)
Definition stage_test (body : MatchQuery.t) (si : Startup.t) : bool :=
  Py.truthy_str (MatchQuery.stage body)
  && Py.str_eq (MatchQuery.stage body) (Startup.stage si).

Definition geography_test (body : MatchQuery.t) (inv : Investor.t) : bool :=
  Py.truthy_str (MatchQuery.geography body)
  && Py.str_eq (MatchQuery.geography body) (Investor.geography inv).

Definition ticket_min_test (body : MatchQuery.t) (inv : Investor.t) : bool :=
  match MatchQuery.ticket_min body, Investor.ticket_min inv with
  | Some b, Some i => leb i b
  | _, _ => false
  end.

Definition ticket_max_test (body : MatchQuery.t) (inv : Investor.t) : bool :=
  match MatchQuery.ticket_max body, Investor.ticket_max inv with
  | Some b, Some i => geb i b
  | _, _ => false
  end.

(** The overlap that counts: none when [body.industry] is empty. *)
Definition counted_overlap (body : MatchQuery.t) (si : Startup.t) : nat :=
  if Py.truthy_list (MatchQuery.industry body) then
    Main.overlap (default [] (Startup.industry si))
                 (default [] (MatchQuery.industry body))
  else 0%nat.

(** The weights of the signals in hundredths, added as integers: ten per
    shared tag up to four tags, twenty for the stage, ten for the
    geography, fifteen for each ticket test. *)
Definition hundredths (k : nat) (b_stage b_geo b_min b_max : bool) : Z :=
  10 * Z.of_nat (Nat.min k 4)
  + (if b_stage then 20 else 0) + (if b_geo then 10 else 0)
  + (if b_min then 15 else 0) + (if b_max then 15 else 0).

Definition exact_hundredths (body : MatchQuery.t) (si : Startup.t) (inv : Investor.t) : Z :=
  hundredths (counted_overlap body si) (stage_test body si)
    (geography_test body inv) (ticket_min_test body inv) (ticket_max_test body inv).

(** The signals a pair can show: an overlap up to the cap and the outcome of
    the four tests; all eighty of them. *)
Definition signals : Type := nat * bool * bool * bool * bool.

Definition all_signals : list signals :=
  k ← [0; 1; 2; 3; 4]%nat;
  b1 ← [false; true]; b2 ← [false; true]; b3 ← [false; true]; b4 ← [false; true];
  [(k, b1, b2, b3, b4)].

(** The score of a pair that shows the signals [x]. *)
Definition value_of (x : signals) : float :=
  let '(k, b1, b2, b3, b4) := x in
  Py.max f0_0 (Py.min f1_0 (MatchSpec.sum_of k b1 b2 b3 b4)).

(** [y] shows every signal that [x] shows. *)
Definition signals_le (x y : signals) : bool :=
  let '(k, b1, b2, b3, b4) := x in
  let '(k', b1', b2', b3', b4') := y in
  (k <=? k')%nat && implb b1 b1' && implb b2 b2' && implb b3 b3' && implb b4 b4'.

(** The signals of a pair under a query. *)
Definition signals_of (body : MatchQuery.t) (si : Startup.t) (inv : Investor.t) : signals :=
  (Nat.min (counted_overlap body si) 4, stage_test body si, geography_test body inv,
   ticket_min_test body inv, ticket_max_test body inv).

End ScoreSpec.

(** ** [main.py], the listing and diagnostic handlers *)

Module Endpoints.

(** A value of a stored document: what JSON has, and the [ObjectId] the
    store assigns. *)
Inductive Value : Type :=
| ObjectId (hex : string)
| Plain (j : Json).




(** [{"$regex": q, "$options": "i"}]. *)
Definition regex_i (q : string) : Json :=
  JObj (<["$regex" := JStr q]> (<["$options" := JStr "i"]> ∅)).

(** [{"$in": [x]}]. *)
Definition in_one (x : string) : Json :=
  JObj (<["$in" := JArr [JStr x]]> ∅).

(** The filter [list_startups] builds from its query parameters. *)
Definition startups_filter (industry stage q : option string) : gmap string Json :=
  let filt : gmap string Json := ∅ in
  let filt :=
    if Py.truthy_str industry then <["industry" := in_one (default "" industry)]> filt
    else filt in
  let filt :=
    if Py.truthy_str stage then <["stage" := JStr (default "" stage)]> filt else filt in
  let filt :=
    if Py.truthy_str q then
      <["$or" := JArr [ JObj (<["name" := regex_i (default "" q)]> ∅);
                        JObj (<["tagline" := regex_i (default "" q)]> ∅) ]]> filt
    else filt in
  filt.

(** The filter [list_investors] builds. *)
Definition investors_filter (domain stage geo : option string) : gmap string Json :=
  let filt : gmap string Json := ∅ in
  let filt :=
    if Py.truthy_str domain then <["domains" := in_one (default "" domain)]> filt
    else filt in
  let filt :=
    if Py.truthy_str stage then <["preferred_stage" := in_one (default "" stage)]> filt
    else filt in
  let filt :=
    if Py.truthy_str geo then <["geography" := JStr (default "" geo)]> filt else filt in
  filt.

(** The filter [get_messages] builds: the conversation in either direction. *)
Definition messages_filter (a b : string) : gmap string Json :=
  <["$or" := JArr [ JObj (<["sender_id" := JStr a]> (<["receiver_id" := JStr b]> ∅));
                    JObj (<["sender_id" := JStr b]> (<["receiver_id" := JStr a]> ∅)) ]]> ∅.

Section Handlers.

(** Python's [str] on a stored value, and the query function of
    [database.py], which is not part of the sources: both are taken as
    given. *)
Variable str : Value -> string.
Variable get_documents : string -> gmap string Json -> list (gmap string Value).

(** The loop [for d in docs: d["_id"] = str(d["_id"]) if "_id" in d else None]. *)
Definition with_str_id (d : gmap string Value) : gmap string Value :=
  <["_id" := match d !! "_id" with
             | Some v => Plain (JStr (str v))
             | None => Plain JNull
             end]> d.

Definition stringify_ids (docs : list (gmap string Value)) : list (gmap string Value) :=
  map with_str_id docs.

(** [GET /api/startups]. *)
Definition list_startups (industry stage q : option string) : list (gmap string Value) :=
  let filt := startups_filter industry stage q in
  let docs := get_documents "startup" filt in
  stringify_ids docs.

(** [GET /api/investors]. *)
Definition list_investors (domain stage geo : option string) : list (gmap string Value) :=
  let filt := investors_filter domain stage geo in
  let docs := get_documents "investor" filt in
  stringify_ids docs.

(** [GET /api/chat]. *)
Definition get_messages (a b : string) : list (gmap string Value) :=
  let docs := get_documents "message" (messages_filter a b) in
  stringify_ids docs.

End Handlers.

End Endpoints.

(** ** More sample data *)

Module MoreExamples.
Import Float64.

(** The tags of [Examples.s_fintech] in another order, one of them twice. *)
Definition s_fintech_shuffled : Startup.t :=
  Examples.startup_doc "s7" ["ai"; "fintech"; "ai"]%string "seed".

(** A query that only names a geography. *)
Definition q_geography_only : MatchQuery.t :=
  {| MatchQuery.industry := None;
     MatchQuery.stage := None;
     MatchQuery.geography := Some "Berlin"%string;
     MatchQuery.ticket_min := None;
     MatchQuery.ticket_max := None |}.


(** A 200 response whose body is not JSON. *)
Definition garbled : Main.Response :=
  {| Main.status_code := 200;
     Main.json := Py.Raise (Py.Exception "Expecting value: line 1 column 1 (char 0)") |}.


End MoreExamples.

(** * Properties *)

(** ** Rounding in binary64

    What [binary_round_aux] returns on an exact positive mantissa, read off
    its two shifts: a mantissa of at most 53 bits is returned unchanged, a
    longer one is cut to 53 bits and keeps its magnitude.  This is enough to
    bound [0.1 * n] from below for every integer [n]. *)

Import Float64 Main.

Section Rounding.

Lemma digits2_pos_spec (p : positive) :
  2 ^ (Zpos (digits2_pos p) - 1) <= Zpos p < 2 ^ Zpos (digits2_pos p).
Proof.
  induction p as [p IH | p IH |]; simpl digits2_pos.
  - rewrite Pos2Z.inj_succ, Z.pow_succ_r by lia.
    replace (Z.succ (Zpos (digits2_pos p)) - 1) with (Z.succ (Zpos (digits2_pos p) - 1)) by lia.
    rewrite Z.pow_succ_r by lia. lia.
  - rewrite Pos2Z.inj_succ, Z.pow_succ_r by lia.
    replace (Z.succ (Zpos (digits2_pos p)) - 1) with (Z.succ (Zpos (digits2_pos p) - 1)) by lia.
    rewrite Z.pow_succ_r by lia. lia.
  - simpl. lia.
Qed.

Lemma shr_1_m (mrs : shr_record) :
  0 <= shr_m mrs -> shr_m (shr_1 mrs) = shr_m mrs / 2.
Proof.
  destruct mrs as [m r s]; cbn [shr_m]. intros Hm.
  destruct m as [| [p | p |] | p]; cbn [shr_1 shr_m]; try lia.
  - reflexivity.
  - apply Z.div_unique with 1; lia.
  - apply Z.div_unique with 0; lia.
  - reflexivity.
Qed.

Lemma iter_shr_1_m (p : positive) : forall mrs : shr_record,
  0 <= shr_m mrs -> shr_m (SpecFloat.iter_pos shr_1 p mrs) = shr_m mrs / 2 ^ Zpos p.
Proof.
  induction p as [p IH | p IH |]; intros mrs Hm; cbn [SpecFloat.iter_pos].
  - assert (H1 : 0 <= shr_m (shr_1 mrs)) by (rewrite shr_1_m by lia; apply Z.div_pos; lia).
    assert (H2 : 0 <= shr_m (SpecFloat.iter_pos shr_1 p (shr_1 mrs)))
      by (rewrite IH by lia; apply Z.div_pos; [lia | apply Z.pow_pos_nonneg; lia]).
    rewrite IH, IH, shr_1_m by lia.
    rewrite !Z.div_div by (try apply Z.pow_pos_nonneg; lia).
    f_equal. rewrite (Pos2Z.inj_xI p).
    replace (2 * Zpos p + 1) with (1 + Zpos p + Zpos p) by lia.
    rewrite !Z.pow_add_r by lia. lia.
  - assert (H2 : 0 <= shr_m (SpecFloat.iter_pos shr_1 p mrs))
      by (rewrite IH by lia; apply Z.div_pos; [lia | apply Z.pow_pos_nonneg; lia]).
    rewrite IH, IH by lia.
    rewrite !Z.div_div by (try apply Z.pow_pos_nonneg; lia).
    f_equal. rewrite (Pos2Z.inj_xO p).
    replace (2 * Zpos p) with (Zpos p + Zpos p) by lia.
    rewrite !Z.pow_add_r by lia. lia.
  - rewrite shr_1_m by lia. reflexivity.
Qed.

Lemma round_nearest_even_bounds (m : Z) (l : location) :
  m <= round_nearest_even m l <= m + 1.
Proof.
  destruct l as [| []]; simpl; try lia. destruct (Z.even m); lia.
Qed.


Lemma round_aux_small (sx : bool) (mx : positive) (ex : Z) :
  Zpos (digits2_pos mx) <= 53 -> -1074 <= ex ->
  binary_round_aux prec emax sx (Zpos mx) ex loc_Exact =
  if ex <=? 971 then S754_finite sx mx ex else S754_infinity sx.
Proof.
  intros Hd He.
  unfold binary_round_aux, shr_fexp, fexp, emin, prec, emax.
  cbn [Zdigits2 shr_record_of_loc].
  assert (Hn : Z.max (Zpos (digits2_pos mx) + ex - 53) (3 - 1024 - 53) - ex <= 0) by lia.
  destruct (Z.max (Zpos (digits2_pos mx) + ex - 53) (3 - 1024 - 53) - ex) as [| q | q] eqn:E;
    try lia; cbn [shr shr_m loc_of_shr_record round_nearest_even Zdigits2];
    rewrite E; cbn [shr shr_m]; reflexivity.
Qed.

Lemma pow2_split (a b : Z) : 0 <= a -> 0 <= b -> 2 ^ (a + b) = 2 ^ a * 2 ^ b.
Proof. intros. apply Z.pow_add_r; lia. Qed.

Lemma digits2_ge (p : positive) (n : Z) :
  0 <= n -> 2 ^ n <= Zpos p -> n < Zpos (digits2_pos p).
Proof.
  intros Hn Hp. destruct (digits2_pos_spec p) as [_ Hu].
  destruct (Z_lt_le_dec n (Zpos (digits2_pos p))) as [|Hle]; [assumption|].
  pose proof (Z.pow_le_mono_r 2 _ _ ltac:(lia) Hle). lia.
Qed.

Lemma digits2_le (p : positive) (n : Z) :
  0 <= n -> Zpos p < 2 ^ n -> Zpos (digits2_pos p) <= n.
Proof.
  intros Hn Hp. destruct (digits2_pos_spec p) as [Hl _].
  destruct (Z_le_gt_dec (Zpos (digits2_pos p)) n) as [|Hgt]; [assumption|].
  assert (Hle : n <= Zpos (digits2_pos p) - 1) by lia.
  pose proof (Z.pow_le_mono_r 2 _ _ ltac:(lia) Hle). lia.
Qed.

Lemma shr_large (m : positive) (q : positive) :
  Zpos q = Zpos (digits2_pos m) - 53 ->
  2 ^ 52 <= shr_m (SpecFloat.iter_pos shr_1 q (Build_shr_record (Zpos m) false false)) < 2 ^ 53.
Proof.
  intros Hq. rewrite iter_shr_1_m by (cbn; lia). cbn [shr_m].
  destruct (digits2_pos_spec m) as [Hl Hu].
  assert (Hq0 : 0 < 2 ^ Zpos q) by (apply Z.pow_pos_nonneg; lia).
  replace (Zpos (digits2_pos m) - 1) with (52 + Zpos q) in Hl by lia.
  replace (Zpos (digits2_pos m)) with (53 + Zpos q) in Hu by lia.
  rewrite pow2_split in Hl, Hu by lia.
  split.
  - apply Z.div_le_lower_bound; lia.
  - apply Z.div_lt_upper_bound; lia.
Qed.

Lemma round_aux_large (sx : bool) (mx : positive) (ex : Z) :
  53 < Zpos (digits2_pos mx) -> -1074 <= ex + Zpos (digits2_pos mx) - 53 ->
  (exists m e, binary_round_aux prec emax sx (Zpos mx) ex loc_Exact = S754_finite sx m e
               /\ 2 ^ 52 <= Zpos m /\ ex + Zpos (digits2_pos mx) - 53 <= e)
  \/ binary_round_aux prec emax sx (Zpos mx) ex loc_Exact = S754_infinity sx.
Proof.
  intros Hd He.
  unfold binary_round_aux, shr_fexp, fexp, emin, prec, emax.
  cbn [Zdigits2 shr_record_of_loc].
  destruct (Z.max (Zpos (digits2_pos mx) + ex - 53) (3 - 1024 - 53) - ex) as [| q | q] eqn:E;
    try lia.
  cbn [shr].
  assert (Hq : Zpos q = Zpos (digits2_pos mx) - 53) by lia.
  pose proof (shr_large mx q Hq) as Hm1.
  set (mrs := SpecFloat.iter_pos shr_1 q (Build_shr_record (Zpos mx) false false)) in *.
  pose proof (round_nearest_even_bounds (shr_m mrs) (loc_of_shr_record mrs)) as Hr.
  set (r := round_nearest_even (shr_m mrs) (loc_of_shr_record mrs)) in *.
  assert (H52 : 0 < 2 ^ 52) by (apply Z.pow_pos_nonneg; lia).
  assert (H53 : 2 ^ 53 = 2 * 2 ^ 52) by (change 53 with (Z.succ 52); apply Z.pow_succ_r; lia).
  assert (H54 : 2 ^ 54 = 2 * 2 ^ 53) by (change 54 with (Z.succ 53); apply Z.pow_succ_r; lia).
  destruct r as [| rp | rp] eqn:Er; try lia.
  cbn [Zdigits2 shr_record_of_loc].
  assert (Hlo : 52 < Zpos (digits2_pos rp)) by (apply digits2_ge; lia).
  assert (Hhi : Zpos (digits2_pos rp) <= 54) by (apply digits2_le; lia).
  destruct (Z.max (Zpos (digits2_pos rp) + (ex + Zpos q) - 53) (3 - 1024 - 53) - (ex + Zpos q))
    as [| q2 | q2] eqn:E2; try lia.
  - cbn [shr shr_m].
    destruct (ex + Zpos q <=? 1024 - 53); [left | right; reflexivity].
    exists rp, (ex + Zpos q). repeat split; lia.
  - cbn [shr].
    assert (Hm2 : 2 ^ 52 <= shr_m (SpecFloat.iter_pos shr_1 q2 (Build_shr_record (Zpos rp) false false))).
    { rewrite iter_shr_1_m by (cbn; lia). cbn [shr_m].
      destruct (digits2_pos_spec rp) as [Hl _].
      replace (Zpos (digits2_pos rp) - 1) with (52 + Zpos q2) in Hl by lia.
      rewrite pow2_split in Hl by lia.
      apply Z.div_le_lower_bound; [apply Z.pow_pos_nonneg; lia | lia]. }
    destruct (shr_m (SpecFloat.iter_pos shr_1 q2 (Build_shr_record (Zpos rp) false false)))
      as [| mp | mp]; try lia.
    destruct (ex + Zpos q + Zpos q2 <=? 1024 - 53); [left | right; reflexivity].
    exists mp, (ex + Zpos q + Zpos q2). repeat split; lia.
Qed.


Lemma iter_xO_value (p d : positive) : Zpos (Pos.iter xO p d) = Zpos p * 2 ^ Zpos d.
Proof.
  induction d as [| d IH] using Pos.peano_ind.
  - cbn [Pos.iter]. rewrite (Pos2Z.inj_xO p). change (2 ^ 1) with 2. lia.
  - rewrite Pos.iter_succ, (Pos2Z.inj_xO (Pos.iter xO p d)), IH, Pos2Z.inj_succ.
    rewrite Z.pow_succ_r by lia. lia.
Qed.

Lemma of_int_large (z : Z) :
  8 <= z ->
  (exists m e, of_int z = S754_finite false m e /\ 2 ^ 52 <= Zpos m /\ -49 <= e)
  \/ of_int z = S754_infinity false.
Proof.
  intros Hz. destruct z as [| p | p]; try lia.
  unfold of_int, binary_normalize, binary_round, fexp, emin, prec, emax.
  assert (Hd : 3 < Zpos (digits2_pos p)) by (apply digits2_ge; [lia | exact Hz]).
  destruct (digits2_pos_spec p) as [Hl Hu].
  unfold shl_align. change (binary_round_aux 53 1024) with (binary_round_aux prec emax).
  destruct (Z.max (Zpos (digits2_pos p) + 0 - 53) (3 - 1024 - 53) - 0) as [| d | d] eqn:E.
  - (* exactly 53 digits *)
    left. rewrite (round_aux_small false p 0) by lia.
    exists p, 0. replace (Zpos (digits2_pos p) - 1) with 52 in Hl by lia.
    repeat split; [assumption | lia].
  - (* more than 53 digits *)
    destruct (round_aux_large false p 0) as [(m & e & Hr & Hm & He) | Hr]; try lia.
    + left. exists m, e. repeat split; [exact Hr | exact Hm | lia].
    + right. exact Hr.
  - (* fewer than 53 digits: the mantissa is shifted left *)
    left.
    assert (Hv := iter_xO_value p d).
    assert (Hd0 : 0 < 2 ^ Zpos d) by (apply Z.pow_pos_nonneg; lia).
    assert (Hlo : 2 ^ 52 <= Zpos (Pos.iter xO p d)).
    { rewrite Hv. replace 52 with ((Zpos (digits2_pos p) - 1) + Zpos d) by lia.
      rewrite pow2_split by lia. apply Z.mul_le_mono_nonneg_r; lia. }
    assert (Hhi : Zpos (Pos.iter xO p d) < 2 ^ 53).
    { rewrite Hv. replace 53 with (Zpos (digits2_pos p) + Zpos d) by lia.
      rewrite pow2_split by lia. apply Z.mul_lt_mono_pos_r; lia. }
    rewrite round_aux_small by (try apply digits2_le; lia).
    replace (Z.max (Zpos (digits2_pos p) + 0 - 53) (3 - 1024 - 53) <=? 971) with true
      by (symmetry; apply Z.leb_le; lia).
    eexists _, _. repeat split; [exact Hlo | lia].
Qed.

Lemma mul_0_1_large (m : positive) (e : Z) :
  2 ^ 52 <= Zpos m -> -49 <= e ->
  ltb (mul f0_1 (S754_finite false m e)) f0_4 = false.
Proof.
  intros Hm He. unfold mul, f0_1, SFmul. cbn [xorb].
  set (a := 7205759403792794%positive).
  assert (Ha : 2 ^ 52 <= Zpos a) by (vm_compute; discriminate).
  assert (H52 : 0 < 2 ^ 52) by (apply Z.pow_pos_nonneg; lia).
  assert (Hd : 104 < Zpos (digits2_pos (a * m))).
  { apply digits2_ge; [lia |]. change 104 with (52 + 52).
    rewrite pow2_split, Pos2Z.inj_mul by lia. apply Z.mul_le_mono_nonneg; lia. }
  destruct (round_aux_large false (a * m) (-56 + e)) as [(m' & e' & Hr & _ & He') | Hr];
    try lia; rewrite Hr; [| reflexivity].
  unfold ltb, SFltb, f0_4, SFcompare.
  replace (e' ?= -54) with Gt by (symmetry; apply Z.compare_gt_iff; lia).
  reflexivity.
Qed.

Lemma industry_component_cap (k : nat) : (4 <= k)%nat -> industry_component k = f0_4.
Proof.
  intros Hk. unfold industry_component, Py.min.
  destruct (Nat.lt_ge_cases k 8) as [Hlt | Hge].
  - assert (Hc : k = 4%nat \/ k = 5%nat \/ k = 6%nat \/ k = 7%nat) by lia.
    destruct Hc as [-> | [-> | [-> | ->]]]; vm_compute; reflexivity.
  - destruct (of_int_large (Z.of_nat k)) as [(m & e & -> & Hm & He) | ->]; try lia.
    + rewrite mul_0_1_large by assumption. reflexivity.
    + reflexivity.
Qed.

End Rounding.

(** ** The order on floats *)

Section Order.

Lemma ltb_leb (x y : float) : ltb x y = true -> leb x y = true.
Proof. unfold ltb, leb, SFltb, SFleb. destruct (SFcompare x y) as [[]|]; congruence. Qed.

Lemma compare_antisym (x y : float) :
  SFcompare y x = option_map CompOpp (SFcompare x y).
Proof.
  destruct x as [sx | sx | | sx mx ex], y as [sy | sy | | sy my ey]; cbn;
    repeat match goal with b : bool |- _ => destruct b end; try reflexivity;
    rewrite (Z.compare_antisym ex ey);
    destruct (ex ?= ey); cbn; try reflexivity;
    change (Pos.compare_cont Eq my mx) with (Pos.compare my mx);
    change (Pos.compare_cont Eq mx my) with (Pos.compare mx my);
    rewrite (Pos.compare_antisym mx my);
    try rewrite CompOpp_involutive; reflexivity.
Qed.

Lemma compare_number (x y : float) :
  leb x x = true -> leb y y = true -> exists c, SFcompare x y = Some c.
Proof.
  unfold leb, SFleb.
  destruct x as [sx | sx | | sx mx ex], y as [sy | sy | | sy my ey]; cbn;
    intros Hx Hy; try discriminate; eauto.
Qed.

(** On two numbers (no NaN) the order is total. *)
Lemma ltb_false_leb (x y : float) :
  leb x x = true -> leb y y = true -> ltb x y = false -> leb y x = true.
Proof.
  intros Hx Hy. destruct (compare_number x y Hx Hy) as [c Hc].
  unfold ltb, leb, SFltb, SFleb. rewrite (compare_antisym x y), Hc.
  destruct c; cbn; congruence.
Qed.

Lemma ltb_irrefl (x : float) : ltb x x = false.
Proof.
  unfold ltb, SFltb.
  destruct x as [sx | sx | | sx mx ex]; cbn;
    repeat match goal with b : bool |- _ => destruct b end; try reflexivity;
    rewrite Z.compare_refl;
    change (Pos.compare_cont Eq mx mx) with (Pos.compare mx mx);
    rewrite Pos.compare_refl; reflexivity.
Qed.

Ltac compare_cases :=
  repeat match goal with
  | H : context [Z.compare ?a ?b] |- _ => destruct (Z.compare_spec a b)
  | |- context [Z.compare ?a ?b] => destruct (Z.compare_spec a b)
  | H : context [Pos.compare ?a ?b] |- _ => destruct (Pos.compare_spec a b)
  | |- context [Pos.compare ?a ?b] => destruct (Pos.compare_spec a b)
  end.

Lemma compare_trans (x y z : float) (c : comparison) :
  SFcompare x y = Some c -> SFcompare y z = Some c -> SFcompare x z = Some c.
Proof.
  destruct x as [sx | sx | | sx mx ex], y as [sy | sy | | sy my ey],
    z as [sz | sz | | sz mz ez]; cbn;
    repeat match goal with b : bool |- _ => destruct b end; try congruence;
    change (Pos.compare_cont Eq) with Pos.compare;
    intros H1 H2; compare_cases; subst; cbn in *; try congruence; try lia.
Qed.

Lemma leb_trans (x y z : float) :
  leb x y = true -> leb y z = true -> leb x z = true.
Proof.
  unfold leb, SFleb.
  destruct x as [sx | sx | | sx mx ex], y as [sy | sy | | sy my ey],
    z as [sz | sz | | sz mz ez]; cbn;
    repeat match goal with b : bool |- _ => destruct b end; try congruence;
    change (Pos.compare_cont Eq) with Pos.compare;
    intros H1 H2; compare_cases; subst; cbn in *; try congruence; try lia.
Qed.

Lemma compare_eq_l (x y z : float) :
  SFcompare x y = Some Eq -> SFcompare x z = SFcompare y z.
Proof.
  destruct x as [sx | sx | | sx mx ex], y as [sy | sy | | sy my ey],
    z as [sz | sz | | sz mz ez]; cbn;
    repeat match goal with b : bool |- _ => destruct b end; try congruence;
    change (Pos.compare_cont Eq) with Pos.compare;
    intros H1; compare_cases; subst; cbn in *; try congruence; try lia.
Qed.

Lemma eqb_ltb_neq (x y v : float) :
  eqb x v = true -> ltb x y = true -> eqb y v = false.
Proof.
  unfold eqb, ltb, SFeqb, SFltb. intros Hx Hl.
  destruct (SFcompare x v) as [[]|] eqn:Exv; try discriminate.
  rewrite (compare_antisym v y), <- (compare_eq_l x v y Exv).
  destruct (SFcompare x y) as [[]|]; try discriminate. reflexivity.
Qed.

End Order.

(** ** The score *)

Section Score.

Lemma clamp_range (s : float) :
  leb f0_0 (Py.max f0_0 (Py.min f1_0 s)) = true
  /\ leb (Py.max f0_0 (Py.min f1_0 s)) f1_0 = true.
Proof.
  unfold Py.max, Py.min.
  destruct (ltb s f1_0) eqn:E1.
  - destruct (ltb f0_0 s) eqn:E2.
    + split; apply ltb_leb; assumption.
    + split; reflexivity.
  - change (ltb f0_0 f1_0) with true. cbn iota. split; reflexivity.
Qed.

Lemma industry_component_min (k : nat) :
  industry_component k = industry_component (Nat.min k 4).
Proof.
  destruct (Nat.le_gt_cases k 4) as [Hle | Hgt].
  - rewrite Nat.min_l by assumption. reflexivity.
  - rewrite Nat.min_r by lia. rewrite industry_component_cap by lia. reflexivity.
Qed.

Lemma score_sum_cases (body : MatchQuery.t) (si : Startup.t) (inv : Investor.t) :
  exists k b1 b2 b3 b4,
    (k <= 4)%nat /\ score_sum body si inv = MatchSpec.sum_of k b1 b2 b3 b4.
Proof.
  unfold score_sum, add_industry, add_stage, add_geography, add_ticket_min,
    add_ticket_max, MatchSpec.sum_of.
  set (k0 := overlap _ _).
  exists (if Py.truthy_list (MatchQuery.industry body) then Nat.min k0 4 else 0%nat),
    (Py.truthy_str (MatchQuery.stage body)
       && Py.str_eq (MatchQuery.stage body) (Startup.stage si)),
    (Py.truthy_str (MatchQuery.geography body)
       && Py.str_eq (MatchQuery.geography body) (Investor.geography inv)),
    (match MatchQuery.ticket_min body, Investor.ticket_min inv with
     | Some b, Some i => leb i b
     | _, _ => false
     end),
    (match MatchQuery.ticket_max body, Investor.ticket_max inv with
     | Some b, Some i => geb i b
     | _, _ => false
     end).
  split; [destruct (Py.truthy_list _); lia |].
  assert (Hs : (if Py.truthy_list (MatchQuery.industry body)
                then add f0_0 (industry_component k0) else f0_0)
               = add f0_0 (industry_component
                   (if Py.truthy_list (MatchQuery.industry body)
                    then Nat.min k0 4 else 0%nat))).
  { destruct (Py.truthy_list _); [rewrite industry_component_min |]; reflexivity. }
  rewrite Hs.
  destruct (MatchQuery.ticket_min body), (Investor.ticket_min inv),
    (MatchQuery.ticket_max body), (Investor.ticket_max inv); reflexivity.
Qed.

Lemma sum_of_validates (k : nat) (b1 b2 b3 b4 : bool) :
  (k <= 4)%nat ->
  let r := Py.round2 (Py.max f0_0 (Py.min f1_0 (MatchSpec.sum_of k b1 b2 b3 b4))) in
  geb r f0_0 && leb r f1_0 = true.
Proof.
  intros Hk.
  do 5 (destruct k as [| k]; [destruct b1, b2, b3, b4; vm_compute; reflexivity |]).
  lia.
Qed.

Lemma rounded_score_validates (body : MatchQuery.t) (si : Startup.t) (inv : Investor.t) :
  geb (Py.round2 (score body si inv)) f0_0 && leb (Py.round2 (score body si inv)) f1_0 = true.
Proof.
  destruct (score_sum_cases body si inv) as (k & b1 & b2 & b3 & b4 & Hk & Hs).
  unfold score. rewrite Hs. apply sum_of_validates. exact Hk.
Qed.

End Score.

(** ** The two loops *)

Section Loops.

Lemma new_match_ok (body : MatchQuery.t) (p : Startup.t * Investor.t) :
  Match.new (Py.str_of_id (Startup._id p.1)) startup
            (Py.str_of_id (Investor._id p.2)) investor
            (Py.round2 (score body p.1 p.2)) (Some rationale_text)
  = Py.Return (MatchSpec.match_of body p).
Proof.
  unfold Match.new. rewrite rounded_score_validates. reflexivity.
Qed.

Lemma for_investors_eq (body : MatchQuery.t) (s : Startup.t) (investors : list Investor.t) :
  forall results,
    for_investors body s investors results
    = Py.Return (results ++ map (MatchSpec.match_of body)
                              (List.filter (MatchSpec.passes body) (map (pair s) investors))).
Proof.
  induction investors as [| i rest IH]; intros results; cbn [for_investors map List.filter].
  - rewrite app_nil_r. reflexivity.
  - unfold MatchSpec.passes at 1. cbn [fst snd].
    destruct (geb (score body s i) f0_2).
    + pose proof (new_match_ok body (s, i)) as Hnew. cbn [fst snd] in Hnew.
      rewrite Hnew. cbn [Py.bind map].
      rewrite IH, <- app_assoc. reflexivity.
    + apply IH.
Qed.

Lemma for_startups_eq (body : MatchQuery.t) (investors : list Investor.t)
  (startups : list Startup.t) :
  forall results,
    for_startups body startups investors results
    = Py.Return (results ++ map (MatchSpec.match_of body)
                              (List.filter (MatchSpec.passes body)
                                 (MatchSpec.cross startups investors))).
Proof.
  induction startups as [| s rest IH]; intros results;
    cbn [for_startups MatchSpec.cross flat_map map List.filter].
  - rewrite app_nil_r. reflexivity.
  - rewrite for_investors_eq. cbn [Py.bind]. rewrite IH.
    fold (MatchSpec.cross rest investors).
    rewrite List.filter_app, map_app, app_assoc. reflexivity.
Qed.

End Loops.

(** ** The sort *)

Section Sort.

Context {A : Type} (key : A -> float).

Lemma insert_desc_perm (x : A) (l : list A) : Permutation (insert_desc key x l) (x :: l).
Proof.
  induction l as [| y l IH]; cbn [insert_desc]; [reflexivity |].
  destruct (ltb (key x) (key y)); [| reflexivity].
  rewrite IH. apply perm_swap.
Qed.

Lemma sort_reverse_cons (x : A) (l : list A) :
  sort_reverse key (x :: l) = insert_desc key x (sort_reverse key l).
Proof. reflexivity. Qed.

Lemma sort_reverse_perm (l : list A) : Permutation (sort_reverse key l) l.
Proof.
  induction l as [| x l IH]; [reflexivity |].
  rewrite sort_reverse_cons, insert_desc_perm, IH. reflexivity.
Qed.

Lemma insert_desc_descending (x : A) (l : list A) :
  leb (key x) (key x) = true ->
  Forall (fun y => leb (key y) (key y) = true) l ->
  MatchSpec.descending key l ->
  MatchSpec.descending key (insert_desc key x l).
Proof.
  unfold MatchSpec.descending. intros Hx Hl Hs.
  induction l as [| y l IH]; cbn [insert_desc].
  - constructor; constructor.
  - apply Forall_cons_1 in Hl as [Hy Hl].
    apply StronglySorted_inv in Hs as [Hs Hall].
    destruct (ltb (key x) (key y)) eqn:E.
    + constructor; [apply IH; assumption |].
      rewrite (insert_desc_perm x l). constructor; [apply ltb_leb; exact E | exact Hall].
    + assert (Hyx : leb (key y) (key x) = true) by (apply ltb_false_leb; assumption).
      constructor; [constructor; assumption |].
      constructor; [exact Hyx |].
      eapply Forall_impl; [exact Hall |]. cbn. intros z Hz.
      apply leb_trans with (key y); assumption.
Qed.

Lemma sort_reverse_descending (l : list A) :
  Forall (fun y => leb (key y) (key y) = true) l ->
  MatchSpec.descending key (sort_reverse key l).
Proof.
  induction l as [| x l IH]; intros Hl.
  - constructor.
  - rewrite sort_reverse_cons. apply Forall_cons_1 in Hl as [Hx Hl].
    apply insert_desc_descending; [exact Hx | | apply IH; exact Hl].
    rewrite (sort_reverse_perm l). exact Hl.
Qed.

Lemma insert_desc_tied (v : float) (x : A) (l : list A) :
  MatchSpec.tied key v (insert_desc key x l) = MatchSpec.tied key v (x :: l).
Proof.
  unfold MatchSpec.tied.
  induction l as [| y l IH]; cbn [insert_desc]; [reflexivity |].
  destruct (ltb (key x) (key y)) eqn:E; [| reflexivity].
  cbn [List.filter] in *. rewrite IH.
  destruct (eqb (key x) v) eqn:Ex; [| reflexivity].
  rewrite (eqb_ltb_neq _ _ _ Ex E). reflexivity.
Qed.

Lemma sort_reverse_tied (v : float) (l : list A) :
  MatchSpec.tied key v (sort_reverse key l) = MatchSpec.tied key v l.
Proof.
  induction l as [| x l IH]; [reflexivity |].
  rewrite sort_reverse_cons, insert_desc_tied.
  unfold MatchSpec.tied in *. cbn [List.filter]. rewrite IH. reflexivity.
Qed.

End Sort.

Section SortMap.

Context {A B : Type} (key : B -> float) (f : A -> B).

Lemma insert_desc_map (x : A) (l : list A) :
  insert_desc key (f x) (map f l) = map f (insert_desc (fun a => key (f a)) x l).
Proof.
  induction l as [| y l IH]; cbn [insert_desc map]; [reflexivity |].
  destruct (ltb (key (f x)) (key (f y))); [rewrite IH |]; reflexivity.
Qed.

Lemma sort_reverse_map (l : list A) :
  sort_reverse key (map f l) = map f (sort_reverse (fun a => key (f a)) l).
Proof.
  induction l as [| x l IH]; [reflexivity |].
  cbn [map]. rewrite !sort_reverse_cons, IH. apply insert_desc_map.
Qed.

End SortMap.

(** ** The matchmaking handler in closed form *)

Section GetMatches.

Lemma get_matches_eq (db : Database.Store) (body : MatchQuery.t) :
  get_matches db body = Py.Return (map (MatchSpec.match_of body) (MatchSpec.ranked db body)).
Proof.
  unfold get_matches. rewrite for_startups_eq. cbn [Py.bind app].
  rewrite sort_reverse_map, firstn_map. reflexivity.
Qed.

Lemma ranked_candidates (db : Database.Store) (body : MatchQuery.t) (p : Startup.t * Investor.t) :
  In p (MatchSpec.ranked db body) -> In p (MatchSpec.candidates db body).
Proof.
  unfold MatchSpec.ranked. intros Hp.
  eapply Permutation_in; [apply sort_reverse_perm |].
  rewrite <- (firstn_skipn 50). apply in_or_app. left. exact Hp.
Qed.

Lemma leb_not_ltb (x y : float) : leb y x = true -> ltb x y = false.
Proof.
  unfold leb, ltb, SFleb, SFltb. rewrite (compare_antisym x y).
  destruct (SFcompare x y) as [[]|]; cbn; congruence.
Qed.

Lemma leb_number (x y : float) : leb x y = true -> leb y y = true.
Proof.
  unfold leb, SFleb.
  destruct x as [sx | sx | | sx mx ex], y as [sy | sy | | sy my ey]; cbn;
    repeat match goal with b : bool |- _ => destruct b end; try congruence;
    intros _; rewrite Z.compare_refl;
    change (Pos.compare_cont Eq my my) with (Pos.compare my my);
    rewrite Pos.compare_refl; reflexivity.
Qed.

Lemma rounded_score_number (body : MatchQuery.t) (p : Startup.t * Investor.t) :
  leb (MatchSpec.rounded_score body p) (MatchSpec.rounded_score body p) = true.
Proof.
  pose proof (rounded_score_validates body p.1 p.2) as H.
  apply andb_true_iff in H as [H _]. apply (leb_number f0_0). exact H.
Qed.

Lemma cross_nil_r (startups : list Startup.t) : MatchSpec.cross startups [] = [].
Proof. induction startups as [| s l IH]; [reflexivity | exact IH]. Qed.

Lemma in_cross (startups : list Startup.t) (investors : list Investor.t)
  (p : Startup.t * Investor.t) :
  In p (MatchSpec.cross startups investors) <-> In p.1 startups /\ In p.2 investors.
Proof.
  unfold MatchSpec.cross. rewrite in_flat_map. destruct p as [s i]; cbn [fst snd]. split.
  - intros (s' & Hs & Hi). apply in_map_iff in Hi as (i' & Heq & Hi).
    inversion Heq; subst. split; assumption.
  - intros [Hs Hi]. exists s. split; [exact Hs | apply in_map; exact Hi].
Qed.

(** Rounding to two decimals does not cross the threshold. *)
Lemma sum_of_threshold (k : nat) (b1 b2 b3 b4 : bool) :
  (k <= 4)%nat ->
  let sc := Py.max f0_0 (Py.min f1_0 (MatchSpec.sum_of k b1 b2 b3 b4)) in
  geb (Py.round2 sc) f0_2 = geb sc f0_2.
Proof.
  intros Hk.
  do 5 (destruct k as [| k]; [destruct b1, b2, b3, b4; vm_compute; reflexivity |]).
  lia.
Qed.

Lemma rounded_score_threshold (body : MatchQuery.t) (p : Startup.t * Investor.t) :
  geb (MatchSpec.rounded_score body p) f0_2 = MatchSpec.passes body p.
Proof.
  unfold MatchSpec.rounded_score, MatchSpec.passes.
  destruct (score_sum_cases body p.1 p.2) as (k & b1 & b2 & b3 & b4 & Hk & Hs).
  unfold score. rewrite Hs. apply sum_of_threshold. exact Hk.
Qed.

End GetMatches.

(** ** The score: specified properties *)

Section ScoreProperties.




(** The literals are the doubles nearest to the decimals they are written
    as: the correctly rounded quotients [1/10], [15/100], ... *)
Lemma literals_are_decimal :
  of_int 0 = f0_0
  /\ div (of_int 1) (of_int 10) = f0_1
  /\ div (of_int 15) (of_int 100) = f0_15
  /\ div (of_int 2) (of_int 10) = f0_2
  /\ div (of_int 4) (of_int 10) = f0_4
  /\ of_int 1 = f1_0
  /\ div (of_int 3) (of_int 10) = f0_3
  /\ div (of_int 6) (of_int 10) = f0_6
  /\ mul f0_1 (of_int 3) = f0_30000000000000004.
Proof. repeat split; vm_compute; reflexivity. Qed.

(** The stage test of [score] succeeds exactly when [body.stage] is a
    non-empty string and the startup document holds the same string. *)
Lemma stage_test_iff (body : MatchQuery.t) (si : Startup.t) :
  Py.truthy_str (MatchQuery.stage body)
    && Py.str_eq (MatchQuery.stage body) (Startup.stage si) = true
  <-> exists st, st <> ""%string
                 /\ MatchQuery.stage body = Some st /\ Startup.stage si = Some st.
Proof.
  destruct (MatchQuery.stage body) as [b |], (Startup.stage si) as [t |];
    cbn [Py.truthy_str Py.str_eq]; split.
  - intros H. apply andb_true_iff in H as [Hb Ht].
    apply String.eqb_eq in Ht as ->. exists t. repeat split.
    intros ->. discriminate.
  - intros (st & Hne & [= ->] & [= ->]). rewrite String.eqb_refl, andb_true_r.
    destruct (String.eqb_spec st ""); [contradiction | reflexivity].
  - rewrite andb_false_r. discriminate.
  - intros (st & _ & _ & [=]).
  - discriminate.
  - intros (st & _ & [=] & _).
  - discriminate.
  - intros (st & _ & [=] & _).
Qed.

(** C1.  For every preference query and every pair of startup and investor
    records, the heuristic score lies in the closed interval [0,1]: no
    combination of inputs produces a score outside this range. *)
Theorem score_in_unit_interval (body : MatchQuery.t) (si : Startup.t) (inv : Investor.t) :
  leb f0_0 (score body si inv) = true /\ leb (score body si inv) f1_0 = true.
Proof. apply clamp_range. Qed.



End ScoreProperties.

(** ** The matchmaking handler: specified properties *)

Section GetMatchesProperties.

Lemma tied_take_prefix {A : Type} (key : A -> float) (v : float) (n : nat) (l : list A) :
  MatchSpec.tied key v (take n l) `prefix_of` MatchSpec.tied key v l.
Proof.
  exists (MatchSpec.tied key v (drop n l)). unfold MatchSpec.tied.
  rewrite <- List.filter_app, firstn_skipn. reflexivity.
Qed.

Lemma match_of_number (body : MatchQuery.t) (l : list (Startup.t * Investor.t)) :
  Forall (fun m => leb (Match.score m) (Match.score m) = true)
    (map (MatchSpec.match_of body) l).
Proof.
  apply Forall_forall. intros m Hm. apply list_elem_of_In, in_map_iff in Hm as (p & <- & _).
  apply rounded_score_number.
Qed.

(** C2.  For every store contents and every preference query the handler
    returns a list, every record of which was built from a pair of the cross
    product whose score is not below [0.2]; and the record of a pair whose
    score is below [0.2] is not in the list. *)
Theorem below_threshold_never_returned (db : Database.Store) (body : MatchQuery.t) :
  exists ms,
    get_matches db body = Py.Return ms
    /\ (forall m, In m ms ->
          exists p,
            In p (MatchSpec.cross (Database.startup db) (Database.investor db))
            /\ m = MatchSpec.match_of body p
            /\ ltb (score body p.1 p.2) f0_2 = false)
    /\ (forall p, ltb (score body p.1 p.2) f0_2 = true ->
          ~ In (MatchSpec.match_of body p) ms).
Proof.
  eexists. split; [apply get_matches_eq |]. split.
  - intros m Hm. apply in_map_iff in Hm as (p & <- & Hp).
    apply ranked_candidates in Hp. unfold MatchSpec.candidates in Hp.
    apply filter_In in Hp as [Hc Hpass]. exists p. repeat split; [exact Hc |].
    apply leb_not_ltb. exact Hpass.
  - intros p Hlow Hin. apply in_map_iff in Hin as (q & Heq & Hq).
    apply ranked_candidates in Hq. unfold MatchSpec.candidates in Hq.
    apply filter_In in Hq as [_ Hpass].
    assert (Hs : MatchSpec.rounded_score body q = MatchSpec.rounded_score body p)
      by (exact (f_equal Match.score Heq)).
    rewrite <- rounded_score_threshold, Hs, rounded_score_threshold in Hpass.
    unfold MatchSpec.passes in Hpass. apply leb_not_ltb in Hpass. congruence.
Qed.

(** C3.  For every store contents and every preference query the handler
    returns a list of at most 50 records, ordered by non-increasing score;
    records with tied scores are in the order in which the two loops
    produced them. *)
Theorem get_matches_sorted_top50 (db : Database.Store) (body : MatchQuery.t) :
  exists ms,
    get_matches db body = Py.Return ms
    /\ (length ms <= 50)%nat
    /\ MatchSpec.descending Match.score ms
    /\ forall v,
         MatchSpec.tied Match.score v ms
         `prefix_of` MatchSpec.tied Match.score v
                       (map (MatchSpec.match_of body) (MatchSpec.candidates db body)).
Proof.
  eexists. split; [apply get_matches_eq |].
  unfold MatchSpec.ranked. rewrite <- firstn_map, <- (sort_reverse_map Match.score).
  set (cands := map (MatchSpec.match_of body) (MatchSpec.candidates db body)).
  repeat split.
  - apply firstn_le_length.
  - unfold MatchSpec.descending.
    apply (StronglySorted_app_1_l _ _ (drop 50 (sort_reverse Match.score cands))).
    rewrite firstn_skipn. apply sort_reverse_descending, match_of_number.
  - intros v. rewrite <- (sort_reverse_tied Match.score v cands). apply tied_take_prefix.
Qed.

(** C6.  If the startup collection is empty or the investor collection is
    empty, the handler returns the empty list, and does not raise, for
    every preference query. *)
Theorem get_matches_empty_collection (db : Database.Store) (body : MatchQuery.t) :
  Database.startup db = [] \/ Database.investor db = [] ->
  get_matches db body = Py.Return [].
Proof.
  intros H. rewrite get_matches_eq.
  unfold MatchSpec.ranked, MatchSpec.candidates,
    Database.get_documents_startup, Database.get_documents_investor.
  destruct H as [-> | ->]; [| rewrite cross_nil_r]; reflexivity.
Qed.


End GetMatchesProperties.

(** ** Google sign-in: specified properties *)

Section AuthProperties.

Lemma json_ne_str_true (j : Json) (s : string) : j <> JStr s -> json_ne_str j s = true.
Proof.
  destruct j as [| b | z | f | t | l | o]; try reflexivity.
  cbn [json_ne_str]. intros Hne. destruct (String.eqb_spec t s) as [-> | _]; [| reflexivity].
  contradiction.
Qed.

Lemma truthy_str_nonempty (s : string) : s <> ""%string -> Py.truthy_str (Some s) = true.
Proof.
  intros Hs. cbn [Py.truthy_str]. destruct (String.eqb_spec s "") as [-> | _]; [| reflexivity].
  contradiction.
Qed.

Lemma audience_accepted_test (client_id : option string) (info : gmap string Json) :
  AuthSpec.audience_accepted client_id info ->
  Py.truthy_str client_id
    && json_ne_str (dict_get info "aud") (default ""%string client_id) = false.
Proof.
  destruct client_id as [cid |]; [| reflexivity].
  intros [-> | Haud]; [reflexivity |].
  rewrite Haud. cbn [default json_ne_str]. unfold default.
  rewrite String.eqb_refl. apply andb_false_r.
Qed.

(** What the handler does once the response is a 200 with a JSON object
    that passes the audience test. *)
Lemma auth_google_accepts (w : World) (db : Database.Store) (body : GoogleAuthRequest.t)
  (r : Response) (info : gmap string Json) :
  requests_get w (GoogleAuthRequest.id_token body) = Py.Return r ->
  status_code r = 200 ->
  json r = Py.Return (JObj info) ->
  Py.truthy_str (GOOGLE_CLIENT_ID w)
    && json_ne_str (dict_get info "aud") (default ""%string (GOOGLE_CLIENT_ID w)) = false ->
  fst (auth_google w db body)
  = Py.Return {| ok := true; profile := AuthSpec.profile_of info |}
  /\ (activitylog_write_fails w = true -> snd (auth_google w db body) = db).
Proof.
  intros Hget Hstatus Hjson Haud.
  unfold auth_google, auth_google_try.
  rewrite Hget, Hstatus, Hjson, Haud. cbn [Z.eqb Pos.eqb negb].
  unfold Database.create_document_activitylog.
  destruct (activitylog_write_fails w); split; try reflexivity; discriminate.
Qed.

(** C7.  If the introspection endpoint answers with a status other than 200,
    or its response carries an audience that differs from the configured
    client id, the handler raises an [HTTPException] with status 401; no
    profile is returned and nothing is written to the store. *)
Theorem auth_google_rejects (w : World) (db : Database.Store) (body : GoogleAuthRequest.t)
  (r : Response) :
  requests_get w (GoogleAuthRequest.id_token body) = Py.Return r ->
  (status_code r <> 200
   \/ exists info cid,
        json r = Py.Return (JObj info)
        /\ GOOGLE_CLIENT_ID w = Some cid /\ cid <> ""%string
        /\ dict_get info "aud" <> JStr cid) ->
  exists detail,
    auth_google w db body = (Py.Raise (Py.HTTPException 401 detail), db).
Proof.
  intros Hget Hbad. unfold auth_google, auth_google_try. rewrite Hget.
  destruct (Z.eqb_spec (status_code r) 200) as [H200 | Hnot]; cbn [negb].
  - destruct Hbad as [Hne | (info & cid & Hjson & Hcid & Hnonempty & Haud)]; [contradiction |].
    rewrite Hjson, Hcid, (truthy_str_nonempty cid Hnonempty).
    cbn [default option_rect andb]. unfold default. cbn.
    rewrite (json_ne_str_true _ _ Haud). eexists. reflexivity.
  - eexists. reflexivity.
Qed.

(** C8.  When token verification succeeds (a 200 response with a JSON object
    that passes the audience test) and the write of the activity-log record
    fails, the failure is swallowed: the handler returns the success value
    with the profile, and the store is left as it was. *)
Theorem auth_google_log_failure_swallowed (w : World) (db : Database.Store)
  (body : GoogleAuthRequest.t) (r : Response) (info : gmap string Json) :
  requests_get w (GoogleAuthRequest.id_token body) = Py.Return r ->
  status_code r = 200 ->
  json r = Py.Return (JObj info) ->
  AuthSpec.audience_accepted (GOOGLE_CLIENT_ID w) info ->
  activitylog_write_fails w = true ->
  auth_google w db body
  = (Py.Return {| ok := true; profile := AuthSpec.profile_of info |}, db).
Proof.
  intros Hget Hstatus Hjson Haud Hfail.
  destruct (auth_google_accepts w db body r info Hget Hstatus Hjson
              (audience_accepted_test _ _ Haud)) as [H1 H2].
  specialize (H2 Hfail). destruct (auth_google w db body) as [o db']. cbn in *.
  congruence.
Qed.

(** C9.  When [GOOGLE_CLIENT_ID] is unset or empty the audience is not
    compared: every 200 response with a JSON object yields the success
    value with the profile, whatever [aud] it carries. *)
Theorem auth_google_no_client_id (w : World) (db : Database.Store)
  (body : GoogleAuthRequest.t) (r : Response) (info : gmap string Json) :
  GOOGLE_CLIENT_ID w = None \/ GOOGLE_CLIENT_ID w = Some ""%string ->
  requests_get w (GoogleAuthRequest.id_token body) = Py.Return r ->
  status_code r = 200 ->
  json r = Py.Return (JObj info) ->
  fst (auth_google w db body)
  = Py.Return {| ok := true; profile := AuthSpec.profile_of info |}.
Proof.
  intros Hid Hget Hstatus Hjson.
  apply (auth_google_accepts w db body r info Hget Hstatus Hjson).
  destruct Hid as [-> | ->]; reflexivity.
Qed.

End AuthProperties.

(** ** The examples of the specification, and the theorems at sample inputs *)

Section Samples.

Import Examples.

(** A seed-stage startup tagged [fintech] and [ai] against a preference for
    [fintech] at the seed stage: the raw score is [0.1 + 0.2], the double
    [0.30000000000000004]; the pair is returned with the score [0.3]. *)
Example fintech_seed_is_matched :
  score q_fintech_seed s_fintech i_plain = f0_30000000000000004
  /\ get_matches (store [s_fintech] [i_plain]) q_fintech_seed
     = Py.Return [ {| Match.a_id := "s1"; Match.a_type := startup;
                      Match.b_id := "i1"; Match.b_type := investor;
                      Match.score := f0_3;
                      Match.rationale := Some rationale_text |} ].
Proof. split; vm_compute; reflexivity. Qed.

(** A preference with [ticket_min = 100000] against an investor with
    [ticket_min = 50000]: the floor test adds [0.15]. *)
Example ticket_floor_awarded :
  add_ticket_min q_tags_tickets i_tickets f0_0 = f0_15.
Proof. vm_compute. reflexivity. Qed.

(** The sort is on the rounded scores.  The pair [(s1, i1)] has the raw
    score [0.3] and the pair [(s2, i2)] the larger raw score
    [0.30000000000000004]; both round to [0.3], so they are tied and stay in
    the order of the loops, [(s1, i1)] first. *)
Example sort_is_on_rounded_scores :
  score q_tags_tickets s_none i_tickets = f0_3
  /\ score q_tags_tickets s_three i_none = f0_30000000000000004
  /\ ltb f0_3 f0_30000000000000004 = true
  /\ (match get_matches (store [s_none; s_three] [i_tickets; i_none]) q_tags_tickets with
      | Py.Return ms => map (fun m => (Match.a_id m, Match.b_id m, Match.score m)) ms
      | Py.Raise _ => []
      end)
     = [("s2", "i1", f0_6); ("s1", "i1", f0_3); ("s2", "i2", f0_3)]%string.
Proof. repeat split; vm_compute; reflexivity. Qed.

(** A token issued to another audience is refused; one issued to the
    configured audience is accepted and the sign-in is logged. *)
Example audience_is_checked :
  fst (auth_google (world (Some "app-1"%string) (tokeninfo 200 "other") false)
         (store [] []) request)
  = Py.Raise (Py.HTTPException 401 "Token audience mismatch")
  /\ auth_google (world (Some "app-1"%string) (tokeninfo 200 "app-1") false)
       (store [] []) request
     = (Py.Return {| ok := true; profile := AuthSpec.profile_of (claims "app-1") |},
        {| Database.startup := []; Database.investor := [];
           Database.activitylog :=
             [ {| ActivityLog.user_id := JStr "user-1";
                  ActivityLog.user_type := "startup";
                  ActivityLog.action := "google_sign_in";
                  ActivityLog.meta_email := JStr "u@example.org" |} ] |}).
Proof. split; vm_compute; reflexivity. Qed.



Lemma get_matches_empty_collection_witness :
  (Database.startup (store [] [i_plain]) = []
   \/ Database.investor (store [] [i_plain]) = [])
  /\ get_matches (store [] [i_plain]) q_fintech_seed = Py.Return [].
Proof.
  split; [left; reflexivity |].
  apply get_matches_empty_collection. left. reflexivity.
Defined.

Lemma auth_google_rejects_witness :
  exists detail,
    auth_google (world (Some "app-1"%string) (tokeninfo 200 "other") false)
      (store [] []) request
    = (Py.Raise (Py.HTTPException 401 detail), store [] []).
Proof.
  apply (auth_google_rejects _ _ _ (tokeninfo 200 "other")); [reflexivity |].
  right. exists (claims "other"), "app-1"%string.
  repeat split; [discriminate |].
  vm_compute. discriminate.
Defined.

Lemma auth_google_log_failure_swallowed_witness :
  auth_google (world (Some "app-1"%string) (tokeninfo 200 "app-1") true)
    (store [] []) request
  = (Py.Return {| ok := true; profile := AuthSpec.profile_of (claims "app-1") |},
     store [] []).
Proof.
  apply (auth_google_log_failure_swallowed _ _ _ (tokeninfo 200 "app-1"));
    try reflexivity.
  right. vm_compute. reflexivity.
Defined.

Lemma auth_google_no_client_id_witness :
  fst (auth_google (world None (tokeninfo 200 "anyone") false) (store [] []) request)
  = Py.Return {| ok := true; profile := AuthSpec.profile_of (claims "anyone") |}.
Proof.
  apply (auth_google_no_client_id _ _ _ (tokeninfo 200 "anyone")); try reflexivity.
  left. reflexivity.
Defined.

End Samples.

(** ** The score as a function of the signals *)

Section Signals.

Import ScoreSpec.

Lemma score_sum_eq (body : MatchQuery.t) (si : Startup.t) (inv : Investor.t) :
  score_sum body si inv
  = MatchSpec.sum_of (Nat.min (counted_overlap body si) 4) (stage_test body si)
      (geography_test body inv) (ticket_min_test body inv) (ticket_max_test body inv).
Proof.
  unfold score_sum, add_industry, add_stage, add_geography, add_ticket_min,
    add_ticket_max, MatchSpec.sum_of, counted_overlap, stage_test, geography_test,
    ticket_min_test, ticket_max_test.
  assert (Hs : (if Py.truthy_list (MatchQuery.industry body)
                then add f0_0 (industry_component
                       (overlap (default [] (Startup.industry si))
                                (default [] (MatchQuery.industry body))))
                else f0_0)
               = add f0_0 (industry_component
                   (Nat.min (if Py.truthy_list (MatchQuery.industry body)
                             then overlap (default [] (Startup.industry si))
                                          (default [] (MatchQuery.industry body))
                             else 0%nat) 4))).
  { destruct (Py.truthy_list _); [rewrite industry_component_min |]; reflexivity. }
  rewrite Hs.
  destruct (MatchQuery.ticket_min body), (Investor.ticket_min inv),
    (MatchQuery.ticket_max body), (Investor.ticket_max inv); reflexivity.
Qed.

Lemma score_value_of (body : MatchQuery.t) (si : Startup.t) (inv : Investor.t) :
  score body si inv = value_of (signals_of body si inv).
Proof. unfold score, value_of, signals_of. rewrite score_sum_eq. reflexivity. Qed.

Lemma in_all_signals (k : nat) (b1 b2 b3 b4 : bool) :
  (k <= 4)%nat -> In (k, b1, b2, b3, b4) all_signals.
Proof.
  intros Hk.
  do 5 (destruct k as [| k];
        [destruct b1, b2, b3, b4; vm_compute;
         repeat (first [left; reflexivity | right]) |]).
  lia.
Qed.

Lemma signals_of_in (body : MatchQuery.t) (si : Startup.t) (inv : Investor.t) :
  In (signals_of body si inv) all_signals.
Proof. apply in_all_signals. lia. Qed.

(** A property checked on the eighty signals holds of every pair. *)
Lemma forall_signals (P : signals -> bool) :
  forallb P all_signals = true ->
  forall body si inv, P (signals_of body si inv) = true.
Proof.
  intros H body si inv. rewrite forallb_forall in H. apply H, signals_of_in.
Qed.

Lemma forall_signals2 (P : signals -> signals -> bool) :
  forallb (fun x => forallb (P x) all_signals) all_signals = true ->
  forall body si inv body' si' inv',
    P (signals_of body si inv) (signals_of body' si' inv') = true.
Proof.
  intros H body si inv body' si' inv'. rewrite forallb_forall in H.
  specialize (H _ (signals_of_in body si inv)). rewrite forallb_forall in H.
  apply H, signals_of_in.
Qed.

End Signals.

(** ** Further properties of the score *)

Section ScoreExtras.

Import ScoreSpec.

(** X1.  [score] reads five things from the two documents: the set of the
    startup's industry tags (their order and repetitions do not matter), its
    stage, and the investor's geography and two ticket bounds.  Two pairs
    that agree on these get the same score, whatever their other fields. *)
Theorem score_reads_five_fields (body : MatchQuery.t) (si si' : Startup.t)
  (inv inv' : Investor.t) :
  (list_to_set (default [] (Startup.industry si)) : gset string)
  = list_to_set (default [] (Startup.industry si')) ->
  Startup.stage si = Startup.stage si' ->
  Investor.geography inv = Investor.geography inv' ->
  Investor.ticket_min inv = Investor.ticket_min inv' ->
  Investor.ticket_max inv = Investor.ticket_max inv' ->
  score body si inv = score body si' inv'.
Proof.
  intros Hset Hstage Hgeo Hmin Hmax.
  unfold score, score_sum, add_industry, add_stage, add_geography, add_ticket_min,
    add_ticket_max, overlap.
  rewrite Hset, Hstage, Hgeo, Hmin, Hmax. reflexivity.
Qed.

(** X2.  The score is monotone in every signal: a pair that shares at
    least as many tags with the query and passes every test the other pair
    passes does not score less. *)
Theorem score_monotone (body : MatchQuery.t) (si si' : Startup.t) (inv inv' : Investor.t) :
  (counted_overlap body si <= counted_overlap body si')%nat ->
  (stage_test body si = true -> stage_test body si' = true) ->
  (geography_test body inv = true -> geography_test body inv' = true) ->
  (ticket_min_test body inv = true -> ticket_min_test body inv' = true) ->
  (ticket_max_test body inv = true -> ticket_max_test body inv' = true) ->
  leb (score body si inv) (score body si' inv') = true.
Proof.
  intros Hk H1 H2 H3 H4.
  pose proof (forall_signals2
                (fun x y => implb (signals_le x y) (leb (value_of x) (value_of y)))
                ltac:(vm_compute; reflexivity) body si inv body si' inv') as H.
  rewrite !score_value_of. cbv beta in H.
  destruct (signals_le (signals_of body si inv) (signals_of body si' inv')) eqn:E;
    [exact H |].
  exfalso. unfold signals_le, signals_of in E.
  assert (Hm : (Nat.min (counted_overlap body si) 4
                <=? Nat.min (counted_overlap body si') 4)%nat = true)
    by (apply Nat.leb_le; lia).
  rewrite Hm in E.
  destruct (stage_test body si), (stage_test body si'),
    (geography_test body inv), (geography_test body inv'),
    (ticket_min_test body inv), (ticket_min_test body inv'),
    (ticket_max_test body inv), (ticket_max_test body inv');
    cbn in E; try discriminate;
    solve [discriminate (H1 eq_refl) | discriminate (H2 eq_refl)
          | discriminate (H3 eq_refl) | discriminate (H4 eq_refl)].
Qed.

(** X3.  The final clamp of [score] never changes the sum: the five
    weights add up to at most [1.0] and nothing is subtracted, so
    [max(0.0, min(1.0, s))] is [s]. *)
Theorem score_clamp_is_identity (body : MatchQuery.t) (si : Startup.t) (inv : Investor.t) :
  score body si inv = score_sum body si inv.
Proof.
  unfold score. rewrite score_sum_eq.
  generalize (stage_test body si), (geography_test body inv),
    (ticket_min_test body inv), (ticket_max_test body inv).
  assert (Hk : (Nat.min (counted_overlap body si) 4 <= 4)%nat) by lia.
  revert Hk. generalize (Nat.min (counted_overlap body si) 4). intros k Hk b1 b2 b3 b4.
  do 5 (destruct k as [| k]; [destruct b1, b2, b3, b4; vm_compute; reflexivity |]).
  lia.
Qed.

Lemma hundredths_min (k : nat) (b1 b2 b3 b4 : bool) :
  hundredths (Nat.min k 4) b1 b2 b3 b4 = hundredths k b1 b2 b3 b4.
Proof. unfold hundredths. rewrite <- Nat.min_assoc, Nat.min_id. reflexivity. Qed.

(** X4.  The score a returned record carries is the double nearest to the
    exact decimal sum of the weights: with the weights added as integers in
    hundredths ([h], a multiple of 5 between 0 and 100), [round(score, 2)]
    is the quotient [h / 100] correctly rounded.  The two-decimal rounding removes the
    binary error of the float sum. *)
Theorem rounded_score_exact (body : MatchQuery.t) (si : Startup.t) (inv : Investor.t) :
  0 <= exact_hundredths body si inv <= 100
  /\ exact_hundredths body si inv mod 5 = 0
  /\ Py.round2 (score body si inv)
     = div (of_int (exact_hundredths body si inv)) (of_int 100).
Proof.
  unfold exact_hundredths. rewrite <- hundredths_min, score_value_of. unfold signals_of.
  generalize (stage_test body si), (geography_test body inv),
    (ticket_min_test body inv), (ticket_max_test body inv).
  assert (Hk : (Nat.min (counted_overlap body si) 4 <= 4)%nat) by lia.
  revert Hk. generalize (Nat.min (counted_overlap body si) 4). intros k Hk b1 b2 b3 b4.
  do 5 (destruct k as [| k];
        [destruct b1, b2, b3, b4;
         (split_and!; [vm_compute; discriminate | vm_compute; discriminate
                      | vm_compute; reflexivity | vm_compute; reflexivity]) |]).
  lia.
Qed.

(** X5.  The test [sc >= 0.2] on the float score agrees with exact
    arithmetic: a pair passes exactly when its weights, added as integers in
    hundredths, reach 20. *)
Theorem threshold_exact (body : MatchQuery.t) (si : Startup.t) (inv : Investor.t) :
  MatchSpec.passes body (si, inv) = (20 <=? exact_hundredths body si inv).
Proof.
  unfold MatchSpec.passes, exact_hundredths. cbn [fst snd].
  rewrite <- hundredths_min, score_value_of. unfold signals_of.
  generalize (stage_test body si), (geography_test body inv),
    (ticket_min_test body inv), (ticket_max_test body inv).
  assert (Hk : (Nat.min (counted_overlap body si) 4 <= 4)%nat) by lia.
  revert Hk. generalize (Nat.min (counted_overlap body si) 4). intros k Hk b1 b2 b3 b4.
  do 5 (destruct k as [| k]; [destruct b1, b2, b3, b4; vm_compute; reflexivity |]).
  lia.
Qed.

(** X6.  Rounding to two decimals never inverts the order of two scores:
    if one raw score is at most another, so are the rounded ones.  Sorting
    on the rounded scores can only merge pairs into ties. *)
Theorem rounding_keeps_order (body body' : MatchQuery.t) (si si' : Startup.t)
  (inv inv' : Investor.t) :
  leb (score body si inv) (score body' si' inv') = true ->
  leb (Py.round2 (score body si inv)) (Py.round2 (score body' si' inv')) = true.
Proof.
  pose proof (forall_signals2
                (fun x y => implb (leb (value_of x) (value_of y))
                              (leb (Py.round2 (value_of x)) (Py.round2 (value_of y))))
                ltac:(vm_compute; reflexivity) body si inv body' si' inv') as H.
  rewrite !score_value_of. cbv beta in H. intros Hle. rewrite Hle in H. exact H.
Qed.

End ScoreExtras.

(** ** Slices of strings *)

Section Slices.



End Slices.

(** ** Further properties of the matchmaking handler *)

Section GetMatchesExtras.

Import ScoreSpec.

Lemma filter_none {A : Type} (f : A -> bool) (l : list A) :
  (forall x, In x l -> f x = false) -> List.filter f l = [].
Proof.
  induction l as [| x l IH]; intros H; [reflexivity |]. cbn [List.filter].
  rewrite (H x (or_introl eq_refl)). apply IH. intros y Hy. apply H. right. exact Hy.
Qed.

Lemma get_matches_none_pass (db : Database.Store) (body : MatchQuery.t) :
  (forall p, MatchSpec.passes body p = false) -> get_matches db body = Py.Return [].
Proof.
  intros H. rewrite get_matches_eq. unfold MatchSpec.ranked, MatchSpec.candidates.
  rewrite filter_none by (intros p _; apply H). reflexivity.
Qed.

Lemma geography_test_unset (body : MatchQuery.t) (inv : Investor.t) :
  Py.truthy_str (MatchQuery.geography body) = false -> geography_test body inv = false.
Proof. unfold geography_test. intros ->. reflexivity. Qed.

Lemma ticket_min_test_unset (body : MatchQuery.t) (inv : Investor.t) :
  MatchQuery.ticket_min body = None -> ticket_min_test body inv = false.
Proof. unfold ticket_min_test. intros ->. reflexivity. Qed.

Lemma ticket_max_test_unset (body : MatchQuery.t) (inv : Investor.t) :
  MatchQuery.ticket_max body = None -> ticket_max_test body inv = false.
Proof. unfold ticket_max_test. intros ->. reflexivity. Qed.

(** X7.  A query that names no industry and no stage, and sets at most one
    of [geography], [ticket_min] and [ticket_max], is answered with the
    empty list whatever the store holds: one remaining signal alone is
    worth at most [0.15], below the threshold. *)
Theorem sparse_query_matches_nothing (db : Database.Store) (body : MatchQuery.t) :
  Py.truthy_list (MatchQuery.industry body) = false ->
  Py.truthy_str (MatchQuery.stage body) = false ->
  (Py.truthy_str (MatchQuery.geography body) = false
   /\ MatchQuery.ticket_min body = None)
  \/ (Py.truthy_str (MatchQuery.geography body) = false
      /\ MatchQuery.ticket_max body = None)
  \/ (MatchQuery.ticket_min body = None /\ MatchQuery.ticket_max body = None) ->
  get_matches db body = Py.Return [].
Proof.
  intros Hind Hstage Hone. apply get_matches_none_pass. intros [si inv].
  unfold MatchSpec.passes. cbn [fst snd]. rewrite score_value_of.
  unfold signals_of, counted_overlap, stage_test.
  rewrite Hind, Hstage. cbn [andb]. change (Nat.min 0 4) with 0%nat.
  destruct Hone as [[Hg Hm] | [[Hg Hm] | [Hm Hx]]].
  - rewrite (geography_test_unset _ _ Hg), (ticket_min_test_unset _ _ Hm).
    destruct (ticket_max_test body inv); vm_compute; reflexivity.
  - rewrite (geography_test_unset _ _ Hg), (ticket_max_test_unset _ _ Hm).
    destruct (ticket_min_test body inv); vm_compute; reflexivity.
  - rewrite (ticket_min_test_unset _ _ Hm), (ticket_max_test_unset _ _ Hx).
    destruct (geography_test body inv); vm_compute; reflexivity.
Qed.

(** X8.  The handler returns [min(50, n)] records, [n] being the number of
    pairs that pass the threshold; when at most 50 pairs pass, the result is
    a rearrangement of all their records, none is lost. *)
Theorem get_matches_count (db : Database.Store) (body : MatchQuery.t) :
  exists ms,
    get_matches db body = Py.Return ms
    /\ length ms = Nat.min 50 (length (MatchSpec.candidates db body))
    /\ ((length (MatchSpec.candidates db body) <= 50)%nat ->
        Permutation ms (map (MatchSpec.match_of body) (MatchSpec.candidates db body))).
Proof.
  eexists. split; [apply get_matches_eq |]. unfold MatchSpec.ranked. split.
  - rewrite length_map, length_take.
    rewrite (Permutation_length (sort_reverse_perm _ _)). reflexivity.
  - intros Hle. rewrite take_ge.
    + apply Permutation_map, sort_reverse_perm.
    + rewrite (Permutation_length (sort_reverse_perm _ _)). exact Hle.
Qed.

(** X9.  The truncation keeps the best: the candidates split into the kept
    and the dropped ones, something is dropped only when 50 are kept, and
    no dropped pair has a rounded score above that of a kept pair. *)
Theorem get_matches_keeps_the_best (db : Database.Store) (body : MatchQuery.t) :
  exists kept dropped,
    get_matches db body = Py.Return (map (MatchSpec.match_of body) kept)
    /\ Permutation (kept ++ dropped) (MatchSpec.candidates db body)
    /\ (dropped <> [] -> length kept = 50%nat)
    /\ forall p q, In p kept -> In q dropped ->
         leb (MatchSpec.rounded_score body q) (MatchSpec.rounded_score body p) = true.
Proof.
  set (sorted := sort_reverse (MatchSpec.rounded_score body) (MatchSpec.candidates db body)).
  exists (take 50 sorted), (drop 50 sorted). repeat split.
  - apply get_matches_eq.
  - rewrite take_drop. apply sort_reverse_perm.
  - intros Hne. apply length_take_le.
    destruct (Nat.le_gt_cases 50 (length sorted)) as [H | H]; [exact H |].
    rewrite drop_ge in Hne by lia. contradiction.
  - intros p q Hp Hq.
    assert (Hs : MatchSpec.descending (MatchSpec.rounded_score body)
                   (take 50 sorted ++ drop 50 sorted)).
    { rewrite take_drop. apply sort_reverse_descending.
      apply Forall_forall. intros x _. apply rounded_score_number. }
    apply (StronglySorted_app_1_elem_of _ _ _ p q Hs); apply list_elem_of_In; assumption.
Qed.

(** X10.  Every record the handler returns has [a_type] startup, [b_type]
    investor, the constant rationale, and a score between [0.2] and [1.0]
    (the rounding does not take a score below the threshold). *)
Theorem returned_records_shape (db : Database.Store) (body : MatchQuery.t) :
  exists ms,
    get_matches db body = Py.Return ms
    /\ Forall (fun m =>
                 Match.a_type m = startup /\ Match.b_type m = investor
                 /\ Match.rationale m = Some rationale_text
                 /\ leb f0_2 (Match.score m) = true
                 /\ leb (Match.score m) f1_0 = true) ms.
Proof.
  eexists. split; [apply get_matches_eq |].
  apply Forall_forall. intros m Hm.
  apply list_elem_of_In, in_map_iff in Hm as (p & <- & Hp).
  apply ranked_candidates in Hp. unfold MatchSpec.candidates in Hp.
  apply filter_In in Hp as [_ Hpass].
  repeat split.
  - change (geb (MatchSpec.rounded_score body p) f0_2 = true).
    rewrite rounded_score_threshold. exact Hpass.
  - pose proof (rounded_score_validates body p.1 p.2) as H.
    apply andb_true_iff in H as [_ H]. exact H.
Qed.

End GetMatchesExtras.

(** ** Further properties of the sign-in handler *)

Section AuthExtras.

(** X11.  As long as [requests.get] and [r.json()] do not themselves raise
    an [HTTPException], the handler either returns a value with [ok] true or
    raises an [HTTPException] whose status is 401 or 500: no other exception
    and no other status leaves it. *)
Theorem auth_google_raises_401_or_500 (w : World) (db : Database.Store)
  (body : GoogleAuthRequest.t) :
  (forall c d, requests_get w (GoogleAuthRequest.id_token body)
               <> Py.Raise (Py.HTTPException c d)) ->
  (forall r c d, requests_get w (GoogleAuthRequest.id_token body) = Py.Return r ->
                 json r <> Py.Raise (Py.HTTPException c d)) ->
  match fst (auth_google w db body) with
  | Py.Return res => ok res = true
  | Py.Raise (Py.HTTPException c _) => c = 401 \/ c = 500
  | Py.Raise _ => False
  end.
Proof.
  intros Hget Hjson. unfold auth_google, auth_google_try.
  destruct (requests_get w (GoogleAuthRequest.id_token body)) as [r | e] eqn:Eg.
  - specialize (Hjson r). destruct (negb (status_code r =? 200)); cbn; [left; reflexivity |].
    destruct (json r) as [j | e] eqn:Ej.
    + destruct j; cbn; try (right; reflexivity).
      destruct (Py.truthy_str _ && json_ne_str _ _); cbn; [left; reflexivity |].
      destruct (Database.create_document_activitylog _ _ _); reflexivity.
    + destruct e as [c d | m | m]; cbn; try (right; reflexivity).
      exfalso. exact (Hjson c d eq_refl eq_refl).
  - destruct e as [c d | m | m]; cbn; try (right; reflexivity).
    exfalso. exact (Hget c d eq_refl).
Qed.


(** X13.  A 200 response whose body does not decode ([r.json()] raises), or
    decodes to something other than an object, makes the handler raise an
    [HTTPException] with status 500; the store is unchanged. *)
Theorem auth_google_undecodable_body (w : World) (db : Database.Store)
  (body : GoogleAuthRequest.t) (r : Response) :
  requests_get w (GoogleAuthRequest.id_token body) = Py.Return r ->
  status_code r = 200 ->
  (exists msg, json r = Py.Raise (Py.Exception msg))
  \/ (exists j, json r = Py.Return j /\ forall o, j <> JObj o) ->
  exists detail,
    auth_google w db body = (Py.Raise (Py.HTTPException 500 detail), db).
Proof.
  intros Hget Hstatus Hbody. unfold auth_google, auth_google_try.
  rewrite Hget, Hstatus. cbn [Z.eqb Pos.eqb negb].
  destruct Hbody as [[msg ->] | (j & -> & Hj)].
  - eexists. reflexivity.
  - destruct j; try (eexists; reflexivity). exfalso. exact (Hj o eq_refl).
Qed.

(** X14.  Whenever the handler raises, it has written nothing: the store
    is as it was. *)
Theorem auth_google_failure_writes_nothing (w : World) (db : Database.Store)
  (body : GoogleAuthRequest.t) (e : Py.Exn) :
  fst (auth_google w db body) = Py.Raise e -> snd (auth_google w db body) = db.
Proof.
  unfold auth_google, auth_google_try.
  destruct (requests_get w (GoogleAuthRequest.id_token body)) as [r | e'].
  - destruct (negb (status_code r =? 200)); [reflexivity |].
    destruct (json r) as [j | e''].
    + destruct j; try (destruct e; reflexivity).
      destruct (Py.truthy_str _ && json_ne_str _ _); [reflexivity |].
      destruct (Database.create_document_activitylog _ _ _). cbn. discriminate.
    + destruct e''; reflexivity.
  - destruct e'; reflexivity.
Qed.

(** X15.  A successful sign-in with a working store appends exactly one
    record to the activity log and leaves the startup and investor
    collections alone.  The record has the action [google_sign_in], the
    user type [startup], the e-mail of the profile, and as user id the
    [sub] of the profile, or ["unknown"] when [sub] is missing or falsy. *)
Theorem auth_google_success_logs_once (w : World) (db : Database.Store)
  (body : GoogleAuthRequest.t) (res : AuthResult) :
  fst (auth_google w db body) = Py.Return res ->
  activitylog_write_fails w = false ->
  exists entry,
    snd (auth_google w db body)
    = {| Database.startup := Database.startup db;
         Database.investor := Database.investor db;
         Database.activitylog := Database.activitylog db ++ [entry] |}
    /\ ActivityLog.action entry = "google_sign_in"%string
    /\ ActivityLog.user_type entry = "startup"%string
    /\ ActivityLog.user_id entry
       = (if json_truthy (sub (profile res)) then sub (profile res) else JStr "unknown")
    /\ ActivityLog.meta_email entry = email (profile res).
Proof.
  unfold auth_google, auth_google_try. intros Hres Hok. revert Hres.
  destruct (requests_get w (GoogleAuthRequest.id_token body)) as [r | e'].
  - destruct (negb (status_code r =? 200)); [discriminate |].
    destruct (json r) as [j | e''].
    + destruct j; try discriminate.
      destruct (Py.truthy_str _ && json_ne_str _ _); [discriminate |].
      unfold Database.create_document_activitylog. rewrite Hok. cbn.
      intros [= <-]. eexists. repeat split.
    + destruct e''; discriminate.
  - destruct e'; discriminate.
Qed.

End AuthExtras.

(** ** The listing and diagnostic handlers *)

Section EndpointsExtras.

Import Endpoints.



(** X18.  The filter of [GET /api/startups] holds a criterion exactly for
    the parameters that are non-empty strings: [industry] becomes an [$in]
    test on one value, [stage] an equality, [q] a case-insensitive [$regex]
    on [name] or [tagline]; no other key is set, and with all three
    parameters absent or empty the filter is the empty one. *)
Theorem startups_filter_keys (industry stage q : option string) :
  let filt := startups_filter industry stage q in
  filt !! "industry"%string
  = (if Py.truthy_str industry then Some (in_one (default ""%string industry)) else None)
  /\ filt !! "stage"%string
     = (if Py.truthy_str stage then Some (JStr (default ""%string stage)) else None)
  /\ filt !! "$or"%string
     = (if Py.truthy_str q then
          Some (JArr [ JObj (<["name"%string := regex_i (default ""%string q)]> ∅);
                       JObj (<["tagline"%string := regex_i (default ""%string q)]> ∅) ])
        else None)
  /\ (forall key, key <> "industry"%string -> key <> "stage"%string ->
                  key <> "$or"%string -> filt !! key = None)
  /\ (Py.truthy_str industry = false -> Py.truthy_str stage = false ->
      Py.truthy_str q = false -> filt = ∅).
Proof.
  unfold startups_filter.
  destruct (Py.truthy_str industry), (Py.truthy_str stage), (Py.truthy_str q);
    split_and!; intros; try discriminate; try reflexivity;
    by simplify_map_eq.
Qed.

(** X19.  The filter of [GET /api/investors] likewise: [domain] and [stage]
    become [$in] tests on [domains] and [preferred_stage], [geo] an equality
    on [geography], each only for a non-empty string; no other key is set,
    and with all three absent or empty the filter is the empty one. *)
Theorem investors_filter_keys (domain stage geo : option string) :
  let filt := investors_filter domain stage geo in
  filt !! "domains"%string
  = (if Py.truthy_str domain then Some (in_one (default ""%string domain)) else None)
  /\ filt !! "preferred_stage"%string
     = (if Py.truthy_str stage then Some (in_one (default ""%string stage)) else None)
  /\ filt !! "geography"%string
     = (if Py.truthy_str geo then Some (JStr (default ""%string geo)) else None)
  /\ (forall key, key <> "domains"%string -> key <> "preferred_stage"%string ->
                  key <> "geography"%string -> filt !! key = None)
  /\ (Py.truthy_str domain = false -> Py.truthy_str stage = false ->
      Py.truthy_str geo = false -> filt = ∅).
Proof.
  unfold investors_filter.
  destruct (Py.truthy_str domain), (Py.truthy_str stage), (Py.truthy_str geo);
    split_and!; intros; try discriminate; try reflexivity;
    by simplify_map_eq.
Qed.

Section Stringify.

Variable str : Value -> string.

(** X20.  The loop that ends the three listing handlers keeps the number
    and order of the documents and every field but [_id]; afterwards every
    document has an [_id] key, holding the text of the old value, or [None]
    for a document that had none. *)
Theorem stringify_ids_spec (docs : list (gmap string Value)) :
  length (stringify_ids str docs) = length docs
  /\ forall i d,
       docs !! i = Some d ->
       exists d',
         stringify_ids str docs !! i = Some d'
         /\ d' !! "_id"%string
            = Some (match d !! "_id"%string with
                    | Some v => Plain (JStr (str v))
                    | None => Plain JNull
                    end)
         /\ forall key, key <> "_id"%string -> d' !! key = d !! key.
Proof.
  unfold stringify_ids. split; [apply length_map |].
  intros i d Hd. exists (with_str_id str d). split_and!.
  - change (map (with_str_id str) docs) with (with_str_id str <$> docs).
    rewrite list_lookup_fmap, Hd. reflexivity.
  - unfold with_str_id. apply lookup_insert_eq.
  - intros key Hkey. unfold with_str_id. apply lookup_insert_ne. congruence.
Qed.

End Stringify.

End EndpointsExtras.

(** ** The further theorems at sample inputs *)

Section MoreSamples.

Import Examples MoreExamples ScoreSpec Endpoints.

Lemma score_reads_five_fields_witness :
  score q_fintech_seed s_fintech i_plain = score q_fintech_seed s_fintech_shuffled i_none.
Proof.
  apply score_reads_five_fields; reflexivity.
Defined.

Lemma score_monotone_witness :
  leb (score q_tags_tickets s_none i_none) (score q_tags_tickets s_three i_tickets) = true.
Proof.
  apply score_monotone.
  - vm_compute. lia.
  - vm_compute. discriminate.
  - vm_compute. discriminate.
  - vm_compute. discriminate.
  - vm_compute. discriminate.
Defined.

Lemma rounding_keeps_order_witness :
  leb (Py.round2 (score q_tags_tickets s_none i_tickets))
      (Py.round2 (score q_tags_tickets s_three i_none)) = true.
Proof.
  apply rounding_keeps_order. vm_compute. reflexivity.
Defined.

Lemma sparse_query_matches_nothing_witness :
  get_matches (store [s_fintech; s_three] [i_plain; i_tickets]) q_geography_only
  = Py.Return [].
Proof.
  apply sparse_query_matches_nothing; [reflexivity | reflexivity |].
  right. right. split; reflexivity.
Defined.

Lemma auth_google_raises_401_or_500_witness :
  match fst (auth_google (world (Some "app-1"%string) (tokeninfo 200 "other") false)
               (store [] []) request) with
  | Py.Return res => ok res = true
  | Py.Raise (Py.HTTPException c _) => c = 401 \/ c = 500
  | Py.Raise _ => False
  end.
Proof.
  apply auth_google_raises_401_or_500.
  - intros c d. discriminate.
  - intros r c d [= <-]. discriminate.
Defined.


Lemma auth_google_undecodable_body_witness :
  exists detail,
    auth_google (world None garbled false) (store [] []) request
    = (Py.Raise (Py.HTTPException 500 detail), store [] []).
Proof.
  apply (auth_google_undecodable_body _ _ _ garbled); [reflexivity | reflexivity |].
  left. eexists. reflexivity.
Defined.

Lemma auth_google_failure_writes_nothing_witness :
  snd (auth_google (world (Some "app-1"%string) (tokeninfo 403 "app-1") false)
         (store [s_fintech] []) request)
  = store [s_fintech] [].
Proof.
  apply (auth_google_failure_writes_nothing _ _ _
           (Py.HTTPException 401 "Invalid Google token")).
  reflexivity.
Defined.

Lemma auth_google_success_logs_once_witness :
  exists entry,
    snd (auth_google (world (Some "app-1"%string) (tokeninfo 200 "app-1") false)
           (store [s_fintech] [i_plain]) request)
    = {| Database.startup := [s_fintech];
         Database.investor := [i_plain];
         Database.activitylog := [] ++ [entry] |}
    /\ ActivityLog.user_id entry = JStr "user-1".
Proof.
  destruct (auth_google_success_logs_once
              (world (Some "app-1"%string) (tokeninfo 200 "app-1") false)
              (store [s_fintech] [i_plain]) request
              {| ok := true; profile := AuthSpec.profile_of (claims "app-1") |})
    as (entry & Hs & _ & _ & Hid & _); [vm_compute; reflexivity | reflexivity |].
  exists entry. split; [exact Hs |]. rewrite Hid. vm_compute. reflexivity.
Defined.


End MoreSamples.
